(** * OpenWeatherMap MCP: the chat client's tool-calling loop and the
      weather server's forecast request, embedded from [client.py] and
      [server.py].

    Python strings are modelled as [string] (the UTF-8 bytes of the text),
    Python [int] as [Z], lists as [list], [None]-able attributes as [option].
    Code that talks to the outside world (the chat-completions endpoint, the
    MCP session, the console) runs in a state-and-exception monad over an
    abstract [World]; the conversation history, which [main] and
    [process_conversation] share by reference, is one field of the state. *)

From stdpp Require Import base list strings gmap pretty.
From Stdlib Require Import ZArith Lia.

#[local] Set Warnings "-register-all".
Open Scope string_scope.
Open Scope list_scope.

(** ** Python runtime values *)

Module Py.

(** Exceptions, split the way the handlers of [client.py] split them:
    [except KeyboardInterrupt], [except Exception], and whatever neither
    catches.  [msg] is [str(e)]. *)
Inductive exn :=
| KeyboardInterrupt
| Exception (msg : string)
| BaseException (msg : string).

Inductive result (A : Type) :=
| Ok (a : A)
| Raise (e : exn).
Arguments Ok {A} a.
Arguments Raise {A} e.

(** What [json.loads] can return. *)
Inductive json :=
| JNull
| JBool (b : bool)
| JInt (n : Z)
| JFloat (repr : string)
| JStr (s : string)
| JArr (elems : list json)
| JObj (members : list (string * json)).

(** [type(v).__name__] *)
Definition type_name (v : json) : string :=
  match v with
  | JNull => "NoneType"
  | JBool _ => "bool"
  | JInt _ => "int"
  | JFloat _ => "float"
  | JStr _ => "str"
  | JArr _ => "list"
  | JObj _ => "dict"
  end.

(** [v.items()]: only a dict has the method. *)
Definition items (v : json) : result (list (string * json)) :=
  match v with
  | JObj members => Ok members
  | _ => Raise (Exception ("'" +:+ type_name v +:+ "' object has no attribute 'items'"))
  end.

(** [l[0]] *)
Definition index0 {A} (l : list A) : result A :=
  match l with
  | x :: _ => Ok x
  | [] => Raise (Exception "list index out of range")
  end.

(** Truthiness of a list, of an optional list and of an optional string. *)
Definition list_truthy {A} (l : list A) : bool :=
  match l with [] => false | _ :: _ => true end.

Definition opt_list_truthy {A} (o : option (list A)) : bool :=
  match o with None => false | Some l => list_truthy l end.

Definition opt_str_truthy (o : option string) : bool :=
  match o with None | Some "" => false | Some _ => true end.

(** [x or default] on an optional string. *)
Definition str_or (o : option string) (default : string) : string :=
  match o with
  | Some s => if opt_str_truthy o then s else default
  | None => default
  end.

(** Iterating over an attribute that passed the truthiness test. *)
Definition opt_list_elems {A} (o : option (list A)) : list A :=
  match o with None => [] | Some l => l end.

(** ["\n"] and [s * n] *)
Definition nl : string := String (Ascii.ascii_of_nat 10) "".

Fixpoint str_repeat (s : string) (n : nat) : string :=
  match n with
  | O => ""
  | S n' => s +:+ str_repeat s n'
  end.

Definition is_Exception (e : exn) : bool :=
  match e with Exception _ => true | _ => false end.

End Py.
Import Py.

(** ** client.py: data *)

Module Client.

(** [tool_call.function] and [tool_call] of a chat completion. *)
Record function_call := {
  fn_name : string;
  fn_arguments : string
}.

Record tool_call := {
  tc_id : string;
  tc_function : function_call
}.

(** [response.choices[i].message] *)
Record chat_message := {
  content : option string;
  tool_calls : option (list tool_call)
}.

Record choice := { message : chat_message }.

Record completion := { choices : list choice }.

(** An entry of the [messages] history: a dict tagged by its ["role"]. *)
Inductive message_dict :=
| SystemMessage (text : string)
| UserMessage (text : string)
| AssistantMessage (text : option string) (calls : option (list tool_call))
| ToolMessage (tool_call_id : string) (text : string).

(** An element of [result.content] of an MCP tool call: only a text block
    has a [.text] attribute. *)
Inductive content_block :=
| TextContent (text : string)
| OtherContent (cls : string).

Definition block_text (c : content_block) : result string :=
  match c with
  | TextContent t => Ok t
  | OtherContent cls =>
      Raise (Exception ("'" +:+ cls +:+ "' object has no attribute 'text'"))
  end.

Record call_tool_result := { result_content : list content_block }.

(** A tool as the MCP server lists it, and as the chat endpoint takes it. *)
Record mcp_tool := {
  name : string;
  description : option string;
  inputSchema : json
}.

Record function_spec := {
  spec_name : string;
  spec_description : string;
  spec_parameters : json
}.

Record openai_tool := {
  tool_type : string;
  tool_function : function_spec
}.

Record StdioServerParameters := {
  command : string;
  args : list string;
  env : option (list (string * string))
}.

(** What an execution does that is visible outside it. *)
Inductive event :=
| EvPrint (line : string)
| EvInput (prompt : string)
| EvQuery (model : string) (history : list message_dict)
          (tools : list openai_tool) (tool_choice : string)
| EvCallTool (tool : string) (arguments : list (string * json)).

(** ** The outside world

    Everything [client.py] imports and calls but does not define. *)
Class Runtime := {
  World : Type;
  (** [openai_client.chat.completions.create(model, messages, tools, tool_choice)] *)
  chat_completions_create :
    string -> list message_dict -> list openai_tool -> string ->
    World -> result completion * World;
  (** [session.call_tool(name, arguments)] *)
  session_call_tool :
    string -> list (string * json) -> World -> result call_tool_result * World;
  (** [session.list_tools().tools] *)
  session_list_tools : World -> result (list mcp_tool) * World;
  session_initialize : World -> result unit * World;
  (** entering and leaving [stdio_client(...)] and [ClientSession(...)] *)
  stdio_client_enter : StdioServerParameters -> World -> result unit * World;
  stdio_client_exit : World -> World;
  client_session_enter : World -> result unit * World;
  client_session_exit : World -> World;
  (** what the exit of each raises in place of an exception that left its
      body (both are task groups, which re-raise it inside an exception
      group), given that exception and the world the body was left in *)
  stdio_client_reraise : exn -> World -> exn;
  client_session_reraise : exn -> World -> exn;
  (** [input(prompt)] *)
  input : string -> World -> result string * World;
  (** [json.loads], [str(v)], [s.strip()], [s.lower()] *)
  json_loads : string -> result json;
  py_str : json -> string;
  str_strip : string -> string;
  str_lower : string -> string
}.

Section Program.
Context `{RT : Runtime}.

(** ** State and monad *)

Record state := {
  world : World;
  messages : list message_dict;
  trace : list event
}.

Definition set_world (w : World) (s : state) : state :=
  {| world := w; messages := messages s; trace := trace s |}.

Definition add_message (m : message_dict) (s : state) : state :=
  {| world := world s; messages := messages s ++ [m]; trace := trace s |}.

Definition set_messages (ms : list message_dict) (s : state) : state :=
  {| world := world s; messages := ms; trace := trace s |}.

Definition add_event (ev : event) (s : state) : state :=
  {| world := world s; messages := messages s; trace := trace s ++ [ev] |}.

Definition M (A : Type) : Type := state -> result A * state.

Definition ret {A} (a : A) : M A := fun s => (Ok a, s).

Definition bind {A B} (m : M A) (k : A -> M B) : M B :=
  fun s =>
    match m s with
    | (Ok a, s') => k a s'
    | (Raise e, s') => (Raise e, s')
    end.

Definition lift {A} (r : result A) : M A := fun s => (r, s).

(** [try: body except Exception as e: handler(str(e))] *)
Definition try_except_Exception {A} (body : M A) (handler : string -> M A) : M A :=
  fun s =>
    match body s with
    | (Raise (Exception msg), s') => handler msg s'
    | other => other
    end.

(** [with cm: body]: the exit runs on every way out of the body; when the
    body was left by an exception, what leaves the statement is what the
    exit raises in its place. *)
Definition with_context {A} (enter : World -> result unit * World)
    (exit : World -> World) (reraise : exn -> World -> exn) (body : M A) : M A :=
  fun s =>
    match enter (world s) with
    | (Raise e, w) => (Raise e, set_world w s)
    | (Ok _, w) =>
        let '(r, s') := body (set_world w s) in
        (match r with
         | Ok a => Ok a
         | Raise e => Raise (reraise e (world s'))
         end,
         set_world (exit (world s')) s')
    end.

Definition world_op {A} (op : World -> result A * World) : M A :=
  fun s => let '(r, w) := op (world s) in (r, set_world w s).

Definition emit (ev : event) : M unit := fun s => (Ok tt, add_event ev s).

Definition print (line : string) : M unit := emit (EvPrint line).

Definition messages_append (m : message_dict) : M unit :=
  fun s => (Ok tt, add_message m s).

Definition get_messages : M (list message_dict) := fun s => (Ok (messages s), s).

End Program.

Declare Scope py_scope.
Delimit Scope py_scope with py.
Notation "'let*' x ':=' c1 'in' c2" := (bind c1 (fun x => c2))
  (at level 10, x name, c1 at level 100, c2 at level 200) : py_scope.
Notation "c1 ';;' c2" := (bind c1 (fun _ => c2))
  (at level 100, c2 at level 200, right associativity) : py_scope.

Section Conversation.
Context `{RT : Runtime}.
Local Open Scope py_scope.

(** ** process_conversation *)

Definition no_response_text : string := "Извините, я не смог сформировать ответ.".
Definition too_long_text : string := "Извините, обработка заняла слишком много времени.".
Definition empty_result_text : string := "Инструмент выполнен, но результат пуст".
Definition tool_error_prefix : string := "Ошибка при вызове инструмента: ".

(** The [try]/[except] of lines 149-159: call the tool and reduce what
    comes back to one text. *)
Definition invoke_tool (function_name : string)
    (function_args : list (string * json)) : M string :=
  try_except_Exception
    (emit (EvCallTool function_name function_args);;
     let* result := world_op (session_call_tool function_name function_args) in
     if list_truthy (result_content result) then
       if list_truthy (result_content result) then
         let* first := lift (index0 (result_content result)) in
         lift (block_text first)
       else ret "Нет результата"
     else ret empty_result_text)
    (fun msg => ret (tool_error_prefix +:+ msg)).

(** The line printed for one tool call. *)
Definition tool_call_line (function_name : string)
    (function_args : list (string * json)) : string :=
  "  🔧 " +:+ function_name +:+ "(" +:+
  String.concat ", " (map (fun kv => fst kv +:+ "=" +:+ py_str (snd kv)) function_args)
  +:+ ")".

(** The body of [for tool_call in assistant_message.tool_calls]. *)
Definition handle_tool_call (tc : tool_call) : M unit :=
  let function_name := fn_name (tc_function tc) in
  let* function_args := lift (json_loads (fn_arguments (tc_function tc))) in
  let* members := lift (items function_args) in
  print (tool_call_line function_name members);;
  let* tool_result := invoke_tool function_name members in
  messages_append (ToolMessage (tc_id tc) tool_result).

Fixpoint dispatch_tool_calls (tcs : list tool_call) : M unit :=
  match tcs with
  | [] => ret tt
  | tc :: rest => handle_tool_call tc;; dispatch_tool_calls rest
  end.

(** [for iteration in range(max_iterations)] with the [return] after it. *)
Fixpoint conversation_loop (iterations : list nat) (tools : list openai_tool)
    : M string :=
  match iterations with
  | [] => ret too_long_text
  | _ :: rest =>
      let* history := get_messages in
      emit (EvQuery "gpt-4o-mini" history tools "auto");;
      let* response :=
        world_op (chat_completions_create "gpt-4o-mini" history tools "auto") in
      let* first := lift (index0 (choices response)) in
      let assistant_message := message first in
      messages_append
        (AssistantMessage (content assistant_message) (tool_calls assistant_message));;
      if negb (opt_list_truthy (tool_calls assistant_message)) then
        ret (str_or (content assistant_message) no_response_text)
      else
        print (nl +:+ "⚙️ Вызов инструментов...");;
        dispatch_tool_calls (opt_list_elems (tool_calls assistant_message));;
        conversation_loop rest tools
  end.

Definition max_iterations : nat := 5.

Definition process_conversation (tools : list openai_tool) : M string :=
  conversation_loop (seq 0 max_iterations) tools.

End Conversation.

(** ** convert_mcp_tools_to_openai *)

Definition no_description_text : string := "Инструмент без описания".

Definition openai_tool_of (tool : mcp_tool) : openai_tool :=
  {| tool_type := "function";
     tool_function :=
       {| spec_name := name tool;
          spec_description := str_or (description tool) no_description_text;
          spec_parameters := inputSchema tool |} |}.

(** The accumulating [for] loop: [openai_tools.append(openai_tool)]. *)
Definition convert_mcp_tools_to_openai (mcp_tools : list mcp_tool) : list openai_tool :=
  fold_left (fun openai_tools tool => openai_tools ++ [openai_tool_of tool])
            mcp_tools [].

Section Shell.
Context `{RT : Runtime}.
Local Open Scope py_scope.

(** ** main and the module's entry point *)

Definition server_params : StdioServerParameters :=
  {| command := "python3"; args := ["server.py"]; env := None |}.

Definition system_prompt : string :=
  "Ты полезный ассистент, который помогает пользователям " +:+
  "узнать погоду в любом городе. У тебя есть доступ к " +:+
  "инструментам для получения текущей погоды и прогноза. " +:+
  "Всегда отвечай на русском языке.".

Definition exit_words : list string := ["выход"; "exit"; "quit"; "q"].

Definition input_prompt : string := nl +:+ "👤 Вы: ".
Definition goodbye_line : string := nl +:+ "👋 До свидания!".
Definition interrupted_line : string := nl +:+ nl +:+ "👋 Программа прервана пользователем".
Definition error_line (msg : string) : string := nl +:+ "❌ Ошибка: " +:+ msg.

(** [str(tool.description)] inside the f-string: [None] prints as "None". *)
Definition opt_str_format (o : option string) : string :=
  match o with Some s => s | None => "None" end.

Fixpoint print_tools (tools : list mcp_tool) : M unit :=
  match tools with
  | [] => ret tt
  | tool :: rest =>
      print ("  • " +:+ name tool +:+ ": " +:+ opt_str_format (description tool));;
      print_tools rest
  end.

(** [while True:], unrolled at most [fuel] times; [None] when the fuel ran
    out before the loop was left. *)
Fixpoint chat_loop (fuel : nat) (openai_tools : list openai_tool) : M (option unit) :=
  match fuel with
  | O => ret None
  | S fuel' =>
      emit (EvInput input_prompt);;
      let* line := world_op (input input_prompt) in
      let user_input := str_strip line in
      if bool_decide (str_lower user_input ∈ exit_words) then
        print goodbye_line;;
        ret (Some tt)
      else if negb (opt_str_truthy (Some user_input)) then
        chat_loop fuel' openai_tools
      else
        messages_append (UserMessage user_input);;
        let* final_response := process_conversation openai_tools in
        print (nl +:+ "🤖 Ассистент: " +:+ final_response);;
        chat_loop fuel' openai_tools
  end.

(** What [main] does inside its two [async with] blocks (lines 38-97). *)
Definition session_body (fuel : nat) : M (option unit) :=
  world_op session_initialize;;
  print "✅ Подключено к MCP серверу погоды";;
  print (str_repeat "=" 60);;
  let* tools_list := world_op session_list_tools in
  print (nl +:+ "📋 Доступные инструменты (" +:+ pretty (length tools_list) +:+ "):");;
  print_tools tools_list;;
  print "";;
  let openai_tools := convert_mcp_tools_to_openai tools_list in
  (fun s => (Ok tt, set_messages [SystemMessage system_prompt] s));;
  print "💬 Чат запущен! Спрашивайте о погоде (введите 'выход' для завершения)";;
  print (str_repeat "=" 60);;
  chat_loop fuel openai_tools.

Definition main (fuel : nat) : M (option unit) :=
  print "🚀 Запуск MCP клиента...";;
  print (str_repeat "=" 60);;
  with_context (stdio_client_enter server_params) stdio_client_exit stdio_client_reraise
    (with_context client_session_enter client_session_exit client_session_reraise
       (session_body fuel)).

(** [if __name__ == "__main__":] with its two handlers. *)
Definition dunder_main (fuel : nat) : M (option unit) :=
  fun s =>
    match main fuel s with
    | (Raise KeyboardInterrupt, s') =>
        (print interrupted_line;; ret (Some tt)) s'
    | (Raise (Exception msg), s') =>
        (print (error_line msg);; ret (Some tt)) s'
    | other => other
    end.

(** The state the process starts in: no history yet, nothing done. *)
Definition initial_state (w : World) : state :=
  {| world := w; messages := []; trace := [] |}.

End Shell.

(** ** Observations on states, traces and histories

    The vocabulary the properties below are stated in. *)

Section Observations.
Context `{RT : Runtime}.

(** What the [try]/[except] of [invoke_tool] makes of the provider's answer. *)
Definition outcome_text (r : result call_tool_result) : result string :=
  match r with
  | Ok res =>
      match result_content res with
      | [] => Ok empty_result_text
      | TextContent t :: _ => Ok t
      | OtherContent cls :: _ =>
          Ok (tool_error_prefix +:+ "'" +:+ cls +:+ "' object has no attribute 'text'")
      end
  | Raise (Exception msg) => Ok (tool_error_prefix +:+ msg)
  | Raise e => Raise e
  end.

(** The state one tool call leaves behind, before its tool turn is
    appended: its line printed, the provider called. *)
Definition after_call (tc : tool_call) (members : list (string * json)) (s : state) : state :=
  let fn := fn_name (tc_function tc) in
  set_world (session_call_tool fn members (world s)).2
    (add_event (EvCallTool fn members) (add_event (EvPrint (tool_call_line fn members)) s)).

(** The query one iteration of the outer loop sends. *)
Definition query_event (tools : list openai_tool) (s : state) : event :=
  EvQuery "gpt-4o-mini" (messages s) tools "auto".

Definition is_query (ev : event) : bool :=
  match ev with EvQuery _ _ _ _ => true | _ => false end.

Definition is_input (ev : event) : bool :=
  match ev with EvInput _ => true | _ => false end.

(** How many model queries, and how many console reads, a trace holds. *)
Definition queries (tr : list event) : nat := length (List.filter is_query tr).

Definition inputs_read (tr : list event) : nat := length (List.filter is_input tr).

(** The tool invocations of a trace, in the order they were made. *)
Definition calls_made (tr : list event) : list (string * list (string * json)) :=
  omap (fun ev => match ev with EvCallTool n a => Some (n, a) | _ => None end) tr.

(** A request whose argument text parses to a JSON object, and the
    arguments it then carries. *)
Definition parses (tc : tool_call) : Prop :=
  exists members, json_loads (fn_arguments (tc_function tc)) = Ok (JObj members).

Definition call_args (tc : tool_call) : list (string * json) :=
  match json_loads (fn_arguments (tc_function tc)) with
  | Ok (JObj members) => members
  | _ => []
  end.

Definition request_of (tc : tool_call) : string * list (string * json) :=
  (fn_name (tc_function tc), call_args tc).

(** The tool provider fails only with instances of [Exception]. *)
Definition tool_failures_are_Exceptions : Prop :=
  forall fn a w e w', session_call_tool fn a w = (Raise e, w') -> is_Exception e = true.

(** Tool turns, and the identifiers a block of them carries. *)
Definition is_tool_message (m : message_dict) : Prop :=
  match m with ToolMessage _ _ => True | _ => False end.

Definition tool_ids (block : list message_dict) : list string :=
  omap (fun m => match m with ToolMessage i _ => Some i | _ => None end) block.

Definition request_ids (calls : option (list tool_call)) : list string :=
  map tc_id (opt_list_elems calls).

(** Scanning a history: every tool turn must carry the identifier of the
    next unanswered request of the assistant turn before it. *)
Fixpoint tool_turns_in_order (pending : list string) (log : list message_dict) : bool :=
  match log with
  | [] => true
  | ToolMessage i _ :: rest =>
      match pending with
      | p :: pending' => bool_decide (i = p) && tool_turns_in_order pending' rest
      | [] => false
      end
  | AssistantMessage _ calls :: rest => tool_turns_in_order (request_ids calls) rest
  | _ :: rest => tool_turns_in_order [] rest
  end.

(** What [main] prints before the chat loop starts, and the state the chat
    loop starts in once the session is up. *)
Definition startup_events (catalog : list mcp_tool) : list event :=
  [EvPrint "🚀 Запуск MCP клиента...";
   EvPrint (str_repeat "=" 60);
   EvPrint "✅ Подключено к MCP серверу погоды";
   EvPrint (str_repeat "=" 60);
   EvPrint (nl +:+ "📋 Доступные инструменты (" +:+ pretty (length catalog) +:+ "):")]
  ++ map (fun tool => EvPrint ("  • " +:+ name tool +:+ ": "
                               +:+ opt_str_format (description tool))) catalog
  ++ [EvPrint "";
      EvPrint "💬 Чат запущен! Спрашивайте о погоде (введите 'выход' для завершения)";
      EvPrint (str_repeat "=" 60)].

Definition chat_start (s : state) (w : World) (catalog : list mcp_tool) : state :=
  {| world := w;
     messages := [SystemMessage system_prompt];
     trace := trace s ++ startup_events catalog |}.

(** Leaving both [async with] blocks. *)
Definition close_session (s : state) : state :=
  set_world (stdio_client_exit (client_session_exit (world s))) s.

(** What leaves both [async with] blocks when [e] left the inner body in
    state [s]: the session's exit re-raises [e], the stdio client's exit
    re-raises that. *)
Definition leaving_contexts (e : exn) (s : state) : exn :=
  stdio_client_reraise (client_session_reraise e (world s)) (client_session_exit (world s)).

(** The text the loop records for what the tool provider answered. *)
Definition recorded_text (answer : result call_tool_result) (text : string) : Prop :=
  match answer with
  | Raise (Exception msg) => text = tool_error_prefix +:+ msg
  | Raise _ => False
  | Ok res =>
      match result_content res with
      | [] => text = empty_result_text
      | TextContent t :: _ => text = t
      | OtherContent cls :: _ =>
          text = tool_error_prefix +:+ "'" +:+ cls +:+ "' object has no attribute 'text'"
      end
  end.

(** [texts] are what the loop records for the calls [tcs] made one after the
    other from the world [w], each call in the world the one before it left,
    the last leaving [w_end]. *)
Fixpoint calls_answered (w : World) (tcs : list tool_call) (texts : list string)
    (w_end : World) : Prop :=
  match tcs, texts with
  | [], [] => w_end = w
  | tc :: tcs', text :: texts' =>
      let answer := session_call_tool (fn_name (tc_function tc)) (call_args tc) w in
      recorded_text answer.1 text /\ calls_answered answer.2 tcs' texts' w_end
  | _, _ => False
  end.

(** An assistant turn whose requests all have different identifiers. *)
Definition unique_requests (m : message_dict) : Prop :=
  match m with
  | AssistantMessage _ calls => NoDup (request_ids calls)
  | _ => True
  end.

(** The model provider gives every request of one assistant message its own
    identifier (the data model's assumption on [ToolCallRequest]). *)
Definition request_ids_unique : Prop :=
  forall model history tools tool_choice w r w',
    chat_completions_create model history tools tool_choice w = (Ok r, w') ->
    Forall (fun ch => NoDup (request_ids (tool_calls (message ch)))) (choices r).

(** The model provider answers every query with a request for tools whose
    arguments parse. *)
Definition model_always_requests_tools : Prop :=
  forall model history tools tool_choice w,
    exists am others w',
      chat_completions_create model history tools tool_choice w
        = (Ok {| choices := {| message := am |} :: others |}, w') /\
      opt_list_truthy (tool_calls am) = true /\
      Forall parses (opt_list_elems (tool_calls am)).

(** Each history of [later] is the one before it, from [h] on, followed by
    an assistant turn and tool turns. *)
Fixpoint grows_by_turns (h : list message_dict) (later : list (list message_dict)) : Prop :=
  match later with
  | [] => True
  | h' :: rest =>
      (exists text calls tool_turns,
         h' = h ++ AssistantMessage text calls :: tool_turns /\
         Forall is_tool_message tool_turns) /\
      grows_by_turns h' rest
  end.

(** The tool invocations the assistant turns of a history ask for. *)
Definition requested (log : list message_dict) : list (string * list (string * json)) :=
  flat_map (fun m => match m with
                     | AssistantMessage _ calls => map request_of (opt_list_elems calls)
                     | _ => []
                     end) log.

(** An event that is neither a model query nor a console read. *)
Definition is_local (ev : event) : Prop :=
  is_query ev = false /\ is_input ev = false.

End Observations.

End Client.

(** ** server.py: the request [get_forecast] sends *)

Module Server.

(** A value of the [params] dict of a request. *)
Inductive param :=
| PStr (s : string)
| PInt (n : Z).

Definition OPENWEATHER_BASE_URL : string := "https://api.openweathermap.org/data/2.5".

(** [client.get(url, params=params, timeout=30.0)], the timeout in seconds. *)
Record http_get := {
  url : string;
  params : gmap string param;
  timeout : Z
}.

(** [make_weather_request] up to the HTTP call: [None] when no API key is
    configured (nothing is sent), else the request that goes out. *)
Definition make_weather_request (OPENWEATHER_API_KEY : option string)
    (endpoint : string) (params : gmap string param) : option http_get :=
  match OPENWEATHER_API_KEY with
  | None => None
  | Some key =>
      if negb (opt_str_truthy (Some key)) then None
      else
        let params := <["appid" := PStr key]> params in
        let params := <["lang" := PStr "ru"]> params in
        Some {| url := OPENWEATHER_BASE_URL +:+ "/" +:+ endpoint;
                params := params;
                timeout := 30 |}
  end.

(** The [params] dict [get_forecast] builds (lines 148-156). *)
Definition get_forecast_params (city : string) (days : Z) (units : string)
    : gmap string param :=
  let days := Z.min (Z.max days 1) 5 in
  <["cnt" := PInt (days * 8)]> (<["units" := PStr units]> (<["q" := PStr city]> ∅)).

(** [get_forecast] up to its call of the weather API. *)
Definition get_forecast_request (OPENWEATHER_API_KEY : option string)
    (city : string) (days : Z) (units : string) : option http_get :=
  make_weather_request OPENWEATHER_API_KEY "forecast"
    (get_forecast_params city days units).

(** *** The rest of [get_forecast]: fetching, and grouping by day *)

(** [result] as a monad, for code that only raises. *)
#[export] Instance result_ret : MRet result := fun A a => Ok a.
#[export] Instance result_bind : MBind result :=
  fun A B k r => match r with Ok a => k a | Raise e => Raise e end.

(** [key in d], [d[key]] and [d.get(key)] on the items of a dict. *)
Fixpoint dict_get (members : list (string * json)) (key : string) : option json :=
  match members with
  | [] => None
  | (k, v) :: rest => if String.eqb k key then Some v else dict_get rest key
  end.

(** [v == s] for a str [s]: only an equal str is equal to it. *)
Definition json_eq_str (v : json) (s : string) : bool :=
  match v with JStr t => String.eqb t s | _ => false end.

(** The first part of [make_weather_request]'s [try]: [client.get],
    [raise_for_status] and [response.json()] together give the body, a JSON
    object as the declared return type has it, or raise. *)
Definition http_client : Type := http_get -> result (list (string * json)).

(** [make_weather_request] as a whole: both [except] clauses return [None]. *)
Definition make_weather_request_run (OPENWEATHER_API_KEY : option string)
    (http : http_client) (endpoint : string) (params : gmap string param)
    : result (option (list (string * json))) :=
  match make_weather_request OPENWEATHER_API_KEY endpoint params with
  | None => Ok None
  | Some request =>
      match http request with
      | Ok body => Ok (Some body)
      | Raise (Exception _) => Ok None
      | Raise e => Raise e
      end
  end.

Section Forecast.

(** Python's own [str(v)], [s.split()], iteration over a str and the
    message of the TypeError of [s["key"]]; and [format_day_forecast], whose
    arithmetic and formatting are floating-point: only whether it returns a
    text or raises is visible here. *)
Variable py_str : json -> string.
Variable str_split : string -> list string.
Variable str_chars : string -> list string.
Variable str_subscript_error : string.
Variable format_day_forecast : list json -> string -> result string.

(** [v[key]] for a str key. *)
Definition getitem (v : json) (key : string) : result json :=
  match v with
  | JObj members =>
      match dict_get members key with
      | Some x => Ok x
      | None => Raise (Exception ("'" +:+ key +:+ "'"))
      end
  | JArr _ => Raise (Exception "list indices must be integers or slices, not str")
  | JStr _ => Raise (Exception str_subscript_error)
  | _ => Raise (Exception ("'" +:+ type_name v +:+ "' object is not subscriptable"))
  end.

(** [for item in v] *)
Definition py_iter (v : json) : result (list json) :=
  match v with
  | JArr elems => Ok elems
  | JObj members => Ok (map (fun kv => JStr (fst kv)) members)
  | JStr s => Ok (map JStr (str_chars s))
  | _ => Raise (Exception ("'" +:+ type_name v +:+ "' object is not iterable"))
  end.

(** [item["dt_txt"].split()[0]] *)
Definition item_date (item : json) : result string :=
  dt_txt ← getitem item "dt_txt";
  match dt_txt with
  | JStr s => index0 (str_split s)
  | _ => Raise (Exception ("'" +:+ type_name dt_txt +:+ "' object has no attribute 'split'"))
  end.

(** The variables of the grouping loop. *)
Record day_state := {
  forecasts : list string;
  current_date : option string;
  day_data : list json
}.

(** [for item in data["list"]] (lines 177-192); the [break] ends the
    recursion with the state as it is. *)
Fixpoint group_loop (days : Z) (temp_unit : string) (items : list json)
    (st : day_state) : result day_state :=
  match items with
  | [] => Ok st
  | item :: rest =>
      date ← item_date item;
      if negb (bool_decide (current_date st = Some date)) then
        if list_truthy (day_data st) then
          text ← format_day_forecast (day_data st) temp_unit;
          let forecasts' := forecasts st ++ [text] in
          if (days <=? Z.of_nat (length forecasts'))%Z then
            Ok {| forecasts := forecasts';
                  current_date := current_date st;
                  day_data := day_data st |}
          else
            group_loop days temp_unit rest
              {| forecasts := forecasts'; current_date := Some date; day_data := [item] |}
        else
          group_loop days temp_unit rest
            {| forecasts := forecasts st; current_date := Some date; day_data := [item] |}
      else
        group_loop days temp_unit rest
          {| forecasts := forecasts st;
             current_date := current_date st;
             day_data := day_data st ++ [item] |}
  end.

(** The last day (lines 194-196). *)
Definition flush_last_day (days : Z) (temp_unit : string) (st : day_state)
    : result (list string) :=
  if list_truthy (day_data st) && (Z.of_nat (length (forecasts st)) <? days)%Z then
    text ← format_day_forecast (day_data st) temp_unit;
    Ok (forecasts st ++ [text])
  else Ok (forecasts st).

Definition day_forecasts (days : Z) (temp_unit : string) (items : list json)
    : result (list string) :=
  st ← group_loop days temp_unit items
         {| forecasts := []; current_date := None; day_data := [] |};
  flush_last_day days temp_unit st.

(** The body of the [try] of [get_forecast] (lines 169-203). *)
Definition forecast_report (data : list (string * json)) (days : Z) (units : string)
    : result string :=
  let temp_unit := if String.eqb units "metric" then "°C" else "°F" in
  records ← getitem (JObj data) "list";
  items ← py_iter records;
  blocks ← day_forecasts days temp_unit items;
  city ← getitem (JObj data) "city";
  city_name ← getitem city "name";
  city' ← getitem (JObj data) "city";
  country ← getitem city' "country";
  Ok ("📅 Прогноз погоды для " +:+ py_str city_name +:+ ", " +:+ py_str country
      +:+ nl +:+ nl +:+ String.concat (nl +:+ nl) blocks).

Definition fetch_failed_text (city : string) : string :=
  "❌ Не удалось получить прогноз для города '" +:+ city +:+ "'.".

Definition api_error_text (data : list (string * json)) : string :=
  "❌ Ошибка API: " +:+
  match dict_get data "message" with
  | Some v => py_str v
  | None => "Неизвестная ошибка"
  end.

Definition processing_error_text (msg : string) : string :=
  "❌ Ошибка при обработке данных прогноза: " +:+ msg.

(** [get_forecast], the logging apart. *)
Definition get_forecast (OPENWEATHER_API_KEY : option string) (http : http_client)
    (city : string) (days : Z) (units : string) : result string :=
  let clamped := Z.min (Z.max days 1) 5 in
  data ← make_weather_request_run OPENWEATHER_API_KEY http "forecast"
           (get_forecast_params city days units);
  match data with
  | None | Some [] => Ok (fetch_failed_text city)
  | Some data =>
      if match dict_get data "cod" with
         | None => true
         | Some cod => negb (json_eq_str cod "200")
         end
      then Ok (api_error_text data)
      else
        match forecast_report data clamped units with
        | Raise (Exception msg) => Ok (processing_error_text msg)
        | other => other
        end
  end.

(** Such consecutive records as share a date, as runs: what the loop is
    compared with.  [dated] pairs each record with its date. *)
Fixpoint runs_from (current : string) (run : list json) (dated : list (string * json))
    : list (list json) :=
  match dated with
  | [] => [run]
  | (d, item) :: rest =>
      if String.eqb d current then runs_from current (run ++ [item]) rest
      else run :: runs_from d [item] rest
  end.

Definition date_runs (dated : list (string * json)) : list (list json) :=
  match dated with
  | [] => []
  | (d, item) :: rest => runs_from d [item] rest
  end.

(** Every record has a date, and which. *)
Definition dated_by (items : list json) (dates : list string) : Prop :=
  Forall2 (fun item d => item_date item = Ok d) items dates.

End Forecast.

End Server.

(** ** Concrete runtimes

    A model provider that answers from the history it is sent, a tool
    provider that answers from the call it receives, and a console whose
    pending lines are the world. *)

Module Demo.
Import Client.

(** [json.loads] on the argument texts used below; any other text is
    taken not to start a JSON value. *)
Definition demo_json_loads (text : string) : result json :=
  if String.eqb text "{}" then Ok (JObj [])
  else if String.eqb text "[]" then Ok (JArr [])
  else if String.eqb text "{city: Moscow}" then
    Raise (Exception
      "Expecting property name enclosed in double quotes: line 1 column 2 (char 1)")
  else Raise (Exception "Expecting value: line 1 column 1 (char 0)").

(** [str(v)] on scalars; containers do not occur below. *)
Definition demo_py_str (v : json) : string :=
  match v with
  | JNull => "None"
  | JBool true => "True"
  | JBool false => "False"
  | JInt n => pretty n
  | JFloat r => r
  | JStr s => s
  | _ => type_name v
  end.

(** What a task group's exit raises in place of an exception that left its
    body: an exception group around it, an Exception when what it wraps is
    one. *)
Definition task_group_reraise (e : exn) (w : list string) : exn :=
  match e with
  | Exception _ => Exception "unhandled errors in a TaskGroup (1 sub-exception)"
  | _ => BaseException "unhandled errors in a TaskGroup (1 sub-exception)"
  end.

(** The console lines below are stripped and lower-case already. *)
Definition oracle_runtime
    (model : list message_dict -> result completion)
    (tool : string -> list (string * json) -> result call_tool_result)
    (catalog : list mcp_tool) : Runtime :=
  {| World := list string;
     chat_completions_create := fun _ history _ _ w => (model history, w);
     session_call_tool := fun fn a w => (tool fn a, w);
     session_list_tools := fun w => (Ok catalog, w);
     session_initialize := fun w => (Ok tt, w);
     stdio_client_enter := fun _ w => (Ok tt, w);
     stdio_client_exit := fun w => w;
     client_session_enter := fun w => (Ok tt, w);
     client_session_exit := fun w => w;
     stdio_client_reraise := task_group_reraise;
     client_session_reraise := task_group_reraise;
     input := fun _ w =>
       match w with
       | line :: rest => (Ok line, rest)
       | [] => (Raise (Exception "EOF when reading a line"), [])
       end;
     json_loads := demo_json_loads;
     py_str := demo_py_str;
     str_strip := fun s => s;
     str_lower := fun s => s |}.

Definition weather_catalog : list mcp_tool :=
  [ {| name := "get_current_weather"; description := Some "current weather";
       inputSchema := JObj [] |};
    {| name := "get_forecast"; description := None; inputSchema := JObj [] |} ].

Definition call (i fn arguments : string) : tool_call :=
  {| tc_id := i; tc_function := {| fn_name := fn; fn_arguments := arguments |} |}.

Definition reply (text : option string) (calls : option (list tool_call)) : result completion :=
  Ok {| choices := [ {| message := {| content := text; tool_calls := calls |} |} ] |}.

Definition has_tool_turn (history : list message_dict) : bool :=
  existsb (fun m => match m with ToolMessage _ _ => true | _ => false end) history.

(** A weather tool provider: the forecast tool is down, the other answers. *)
Definition flaky_tools (fn : string) (a : list (string * json)) : result call_tool_result :=
  if String.eqb fn "get_forecast" then Raise (Exception "Connection closed")
  else if String.eqb fn "get_nothing" then Ok {| result_content := [] |}
  else Ok {| result_content := [TextContent "Sunny, 21 C"] |}.

(** A model that never stops asking for the same two tools. *)
Definition relentless_model (history : list message_dict) : result completion :=
  reply None (Some [call "call_1" "get_forecast" "{}";
                    call "call_2" "get_current_weather" "{}"]).

(** A model that asks for three tools once, then answers. *)
Definition polite_model (history : list message_dict) : result completion :=
  if has_tool_turn history then reply (Some "Sunny.") None
  else reply None (Some [call "call_1" "get_forecast" "{}";
                         call "call_2" "get_current_weather" "{}";
                         call "call_3" "get_nothing" "{}"]).

(** A model whose first request carries an argument text that is not JSON. *)
Definition sloppy_model (history : list message_dict) : result completion :=
  reply None (Some [call "call_1" "get_current_weather" "{city: Moscow}";
                    call "call_2" "get_forecast" "{}"]).

(** A model that answers at once, with a text or with nothing. *)
Definition direct_model (history : list message_dict) : result completion :=
  reply (Some "Sunny.") None.

Definition silent_model (history : list message_dict) : result completion :=
  reply (Some "") (Some []).

(** A model endpoint that is down. *)
Definition failing_model (history : list message_dict) : result completion :=
  Raise (Exception "Connection error.").

Definition relentless_runtime : Runtime := oracle_runtime relentless_model flaky_tools weather_catalog.
Definition polite_runtime : Runtime := oracle_runtime polite_model flaky_tools weather_catalog.
Definition sloppy_runtime : Runtime := oracle_runtime sloppy_model flaky_tools weather_catalog.
Definition direct_runtime : Runtime := oracle_runtime direct_model flaky_tools weather_catalog.
Definition silent_runtime : Runtime := oracle_runtime silent_model flaky_tools weather_catalog.
Definition failing_runtime : Runtime := oracle_runtime failing_model flaky_tools weather_catalog.

(** A model that asks for one tool, then answers; an endpoint whose
    completions have no choice; a tool provider interrupted during the call. *)
Definition one_call_model (history : list message_dict) : result completion :=
  if has_tool_turn history then reply (Some "Sunny.") None
  else reply None (Some [call "call_1" "get_current_weather" "{}"]).

Definition choiceless_model (history : list message_dict) : result completion :=
  Ok {| choices := [] |}.

Definition interrupted_tools (fn : string) (a : list (string * json))
    : result call_tool_result :=
  Raise KeyboardInterrupt.

Definition one_call_runtime : Runtime := oracle_runtime one_call_model flaky_tools weather_catalog.
Definition choiceless_runtime : Runtime :=
  oracle_runtime choiceless_model flaky_tools weather_catalog.
Definition interrupted_runtime : Runtime :=
  oracle_runtime relentless_model interrupted_tools weather_catalog.

(** A conversation that has just received its user turn. *)
Definition asked (RT : Runtime) (w : @World RT) : @state RT :=
  {| world := w;
     messages := [SystemMessage system_prompt; UserMessage "weather in Moscow?"];
     trace := [] |}.

End Demo.

(** ** A concrete forecast

    Records three hours apart that start in the evening of one day, a
    whitespace splitter for their timestamps, and a stand-in for the day
    formatter that names how many records a day has. *)

Module DemoForecast.
Import Server.

Fixpoint split_spaces_from (word : string) (s : string) : list string :=
  match s with
  | EmptyString => if String.eqb word "" then [] else [word]
  | String c rest =>
      if Ascii.eqb c (Ascii.ascii_of_nat 32) then
        (if String.eqb word "" then [] else [word]) ++ split_spaces_from "" rest
      else split_spaces_from (word +:+ String c "") rest
  end.

(** [s.split()] on text whose only whitespace is the space. *)
Definition split_spaces (s : string) : list string := split_spaces_from "" s.

Definition record (dt_txt : string) : json := JObj [("dt_txt", JStr dt_txt)].

Definition count_records (day_data : list json) (temp_unit : string) : result string :=
  Ok (pretty (length day_data) +:+ " records, " +:+ temp_unit).

Definition evening_records : list json :=
  [record "2024-05-01 18:00:00"; record "2024-05-01 21:00:00";
   record "2024-05-02 00:00:00"; record "2024-05-02 03:00:00";
   record "2024-05-02 06:00:00"; record "2024-05-03 00:00:00"].

Definition evening_dates : list string :=
  ["2024-05-01"; "2024-05-01"; "2024-05-02"; "2024-05-02"; "2024-05-02"; "2024-05-03"].

Definition forecast_body (cod : json) : list (string * json) :=
  [("cod", cod);
   ("list", JArr evening_records);
   ("city", JObj [("name", JStr "Moscow"); ("country", JStr "RU")])].

Definition answering (body : list (string * json)) : http_client := fun _ => Ok body.
Definition unreachable : http_client := fun _ => Raise (Exception "All connection attempts failed").

End DemoForecast.

(** * Properties *)

Import Client.

(** ** The adapter and the forecast request *)

Lemma convert_acc (mcp_tools : list mcp_tool) (acc : list openai_tool) :
  fold_left (fun openai_tools tool => openai_tools ++ [openai_tool_of tool]) mcp_tools acc
  = acc ++ map openai_tool_of mcp_tools.
Proof.
  revert acc. induction mcp_tools as [|tool rest IH]; intros acc; simpl.
  - by rewrite app_nil_r.
  - rewrite IH. by rewrite <- app_assoc.
Qed.

Lemma convert_is_map (mcp_tools : list mcp_tool) :
  convert_mcp_tools_to_openai mcp_tools = map openai_tool_of mcp_tools.
Proof. unfold convert_mcp_tools_to_openai. by rewrite convert_acc. Qed.

Lemma str_or_nonempty (o : option string) (default : string) :
  default <> "" -> str_or o default <> "".
Proof.
  intros Hd. destruct o as [s|]; simpl; [|done].
  destruct s; simpl; done.
Qed.

(** C6: the adapter returns one entry per descriptor, in the same order,
    each marked ["function"], with the descriptor's name and input schema
    unchanged; the description is the descriptor's own when it has a
    non-empty one and the fixed placeholder otherwise (absent or empty), so
    no entry has an empty description.  Being a total function of its
    argument alone, it has no failure mode and no effect. *)
Theorem C6_adapter_preserves_catalog (mcp_tools : list mcp_tool) :
  length (convert_mcp_tools_to_openai mcp_tools) = length mcp_tools /\
  map (fun t => spec_name (tool_function t)) (convert_mcp_tools_to_openai mcp_tools)
    = map name mcp_tools /\
  map (fun t => spec_parameters (tool_function t)) (convert_mcp_tools_to_openai mcp_tools)
    = map inputSchema mcp_tools /\
  map tool_type (convert_mcp_tools_to_openai mcp_tools)
    = map (fun _ => "function") mcp_tools /\
  map (fun t => spec_description (tool_function t)) (convert_mcp_tools_to_openai mcp_tools)
    = map (fun tool => match description tool with
                       | None | Some "" => "Инструмент без описания"
                       | Some d => d
                       end) mcp_tools /\
  Forall (fun t => spec_description (tool_function t) <> "")
         (convert_mcp_tools_to_openai mcp_tools).
Proof.
  rewrite convert_is_map. split_and!.
  - by rewrite length_map.
  - rewrite map_map. done.
  - rewrite map_map. done.
  - rewrite map_map. done.
  - rewrite map_map. apply map_ext. intros tool. simpl.
    destruct (description tool) as [[|c d]|]; done.
  - apply Forall_map, Forall_forall. intros tool _. simpl.
    by apply str_or_nonempty.
Qed.

(** C10: whatever integer [days] is, [get_forecast] replaces it by a value
    between 1 and 5 (itself when it already lies there) and asks for eight
    times that many records: the [params] it builds carry that [cnt], and so
    does the request sent to the forecast endpoint when an API key (any
    non-empty string [String c key]) is configured. *)
Theorem C10_forecast_days_clamped (c : Ascii.ascii) (key city units : string) (days : Z) :
  let clamped := Z.min (Z.max days 1) 5 in
  let request := Server.get_forecast_request (Some (String c key)) city days units in
  (1 <= clamped <= 5)%Z /\
  (clamped = if (days <? 1)%Z then 1%Z else if (5 <? days)%Z then 5%Z else days) /\
  Server.get_forecast_params city days units !! "cnt" = Some (Server.PInt (clamped * 8)) /\
  (Server.params <$> request)
    = Some (<["lang" := Server.PStr "ru"]>
             (<["appid" := Server.PStr (String c key)]>
               (Server.get_forecast_params city days units))) /\
  (Server.url <$> request) = Some "https://api.openweathermap.org/data/2.5/forecast" /\
  (request ≫= fun r => Server.params r !! "cnt") = Some (Server.PInt (clamped * 8)).
Proof.
  intros clamped request. subst clamped request. split_and!.
  - lia.
  - lia.
  - destruct (Z.ltb_spec days 1), (Z.ltb_spec 5 days); lia.
  - unfold Server.get_forecast_params. by rewrite lookup_insert_eq.
  - done.
  - done.
  - simpl. rewrite lookup_insert_ne by done. rewrite lookup_insert_ne by done.
    unfold Server.get_forecast_params. by rewrite lookup_insert_eq.
Qed.

(** ** The tool invoker and one tool call *)

Section Loop.
Context `{RT : Runtime}.

Ltac run :=
  unfold bind, ret, lift, emit, print, messages_append, get_messages, world_op,
    try_except_Exception; simpl.

(** The invoker calls the provider once and reduces the answer. *)
Lemma invoke_tool_eq (fn : string) (a : list (string * json)) (s : state) :
  invoke_tool fn a s
  = (outcome_text (session_call_tool fn a (world s)).1,
     set_world (session_call_tool fn a (world s)).2 (add_event (EvCallTool fn a) s)).
Proof.
  unfold invoke_tool. run.
  destruct (session_call_tool fn a (world s)) as [[res|e] w]; simpl.
  - destruct (result_content res) as [|[t|cls] others]; simpl; done.
  - destruct e; done.
Qed.

(** One pass of the body of the inner [for], spelled out. *)
Lemma handle_tool_call_eq (tc : tool_call) (s : state) :
  handle_tool_call tc s =
  match json_loads (fn_arguments (tc_function tc)) with
  | Raise e => (Raise e, s)
  | Ok v =>
      match items v with
      | Raise e => (Raise e, s)
      | Ok members =>
          match outcome_text
                  (session_call_tool (fn_name (tc_function tc)) members (world s)).1 with
          | Ok text => (Ok tt, add_message (ToolMessage (tc_id tc) text) (after_call tc members s))
          | Raise e => (Raise e, after_call tc members s)
          end
      end
  end.
Proof.
  unfold handle_tool_call.
  unfold bind at 1. unfold lift at 1.
  destruct (json_loads (fn_arguments (tc_function tc))) as [v|e]; [|done].
  unfold bind at 1. unfold lift at 1.
  destruct (items v) as [members|e]; [|done].
  unfold bind at 1. unfold print at 1, emit at 1.
  unfold bind at 1. rewrite invoke_tool_eq. simpl.
  unfold after_call.
  destruct (outcome_text _) as [text|e]; done.
Qed.

Lemma outcome_text_Exception (r : result call_tool_result) :
  (forall e, r = Raise e -> is_Exception e = true) ->
  exists text, outcome_text r = Ok text.
Proof.
  intros H. destruct r as [res|e]; simpl.
  - destruct (result_content res) as [|[t|cls] others]; eauto.
  - specialize (H e eq_refl). destruct e; try discriminate. eauto.
Qed.

Lemma handle_tool_call_parses (tc : tool_call) (s : state) :
  parses tc -> tool_failures_are_Exceptions ->
  exists text,
    handle_tool_call tc s
    = (Ok tt, add_message (ToolMessage (tc_id tc) text) (after_call tc (call_args tc) s)).
Proof.
  intros [members Hp] Hx. rewrite handle_tool_call_eq.
  unfold call_args. rewrite Hp. simpl.
  destruct (outcome_text_Exception
              (session_call_tool (fn_name (tc_function tc)) members (world s)).1)
    as [text Ht].
  - intros e He.
    destruct (session_call_tool (fn_name (tc_function tc)) members (world s))
      as [r w] eqn:Hc.
    simpl in He. subst r. by eapply Hx.
  - exists text. by rewrite Ht.
Qed.

(** ** Counting in traces *)

Lemma queries_app (tr1 tr2 : list event) : queries (tr1 ++ tr2) = queries tr1 + queries tr2.
Proof. unfold queries. by rewrite List.filter_app, length_app. Qed.

Lemma calls_made_app (tr1 tr2 : list event) :
  calls_made (tr1 ++ tr2) = calls_made tr1 ++ calls_made tr2.
Proof. unfold calls_made. apply omap_app. Qed.

Lemma trace_add_message (m : message_dict) (s : state) :
  trace (add_message m s) = trace s.
Proof. done. Qed.

Lemma messages_add_message (m : message_dict) (s : state) :
  messages (add_message m s) = messages s ++ [m].
Proof. done. Qed.

Lemma after_call_queries (tc : tool_call) (members : list (string * json)) (s : state) :
  queries (trace (after_call tc members s)) = queries (trace s).
Proof.
  unfold after_call. simpl. rewrite !queries_app. simpl. unfold queries. simpl. lia.
Qed.

Lemma after_call_calls (tc : tool_call) (members : list (string * json)) (s : state) :
  calls_made (trace (after_call tc members s))
  = calls_made (trace s) ++ [(fn_name (tc_function tc), members)].
Proof.
  unfold after_call. simpl. rewrite !calls_made_app. simpl. by rewrite app_nil_r.
Qed.

(** ** The inner loop *)

Lemma dispatch_cons (tc : tool_call) (rest : list tool_call) (s : state) :
  dispatch_tool_calls (tc :: rest) s =
  match handle_tool_call tc s with
  | (Ok _, s') => dispatch_tool_calls rest s'
  | (Raise e, s') => (Raise e, s')
  end.
Proof. done. Qed.

(** Whatever happens, a pass over the requests appends tool turns for a
    prefix of them, in their order, all of them when it completes; it sends
    no model query. *)
Lemma dispatch_run (tcs : list tool_call) (s : state) :
  exists texts,
    messages (dispatch_tool_calls tcs s).2
      = messages s ++ zip_with ToolMessage (map tc_id tcs) texts /\
    length texts <= length tcs /\
    ((dispatch_tool_calls tcs s).1 = Ok tt -> length texts = length tcs) /\
    queries (trace (dispatch_tool_calls tcs s).2) = queries (trace s).
Proof.
  revert s. induction tcs as [|tc rest IH]; intros s.
  - exists []. simpl. rewrite app_nil_r. split_and!; done.
  - rewrite dispatch_cons, handle_tool_call_eq.
    destruct (json_loads _) as [v|e].
    2:{ exists []. simpl. rewrite app_nil_r. split_and!; [done|lia|done|done]. }
    destruct (items v) as [members|e].
    2:{ exists []. simpl. rewrite app_nil_r. split_and!; [done|lia|done|done]. }
    destruct (outcome_text _) as [text|e].
    2:{ exists []. simpl. rewrite app_nil_r.
        split_and!; [done|lia|done|]. apply after_call_queries. }
    destruct (IH (add_message (ToolMessage (tc_id tc) text) (after_call tc members s)))
      as (texts & Hm & Hle & Hok & Hq).
    exists (text :: texts). split_and!.
    + rewrite Hm. simpl. by rewrite <- app_assoc.
    + simpl. lia.
    + intros H. simpl. f_equal. by apply Hok.
    + rewrite Hq, trace_add_message. apply after_call_queries.
Qed.

(** When every request parses and the provider fails only with Exceptions,
    the pass completes: every request is sent to the provider, in order, and
    every one gets its tool turn. *)
Lemma dispatch_completes (tcs : list tool_call) (s : state) :
  Forall parses tcs -> tool_failures_are_Exceptions ->
  exists texts s',
    dispatch_tool_calls tcs s = (Ok tt, s') /\
    length texts = length tcs /\
    messages s' = messages s ++ zip_with ToolMessage (map tc_id tcs) texts /\
    calls_made (trace s') = calls_made (trace s) ++ map request_of tcs /\
    queries (trace s') = queries (trace s).
Proof.
  intros Hp Hx. revert s. induction Hp as [|tc rest Htc _ IH]; intros s.
  - exists [], s. simpl. rewrite !app_nil_r. split_and!; done.
  - destruct (handle_tool_call_parses tc s Htc Hx) as [text Hh].
    destruct (IH (add_message (ToolMessage (tc_id tc) text) (after_call tc (call_args tc) s)))
      as (texts & s' & Hd & Hlen & Hm & Hc & Hq).
    exists (text :: texts), s'. split_and!.
    + by rewrite dispatch_cons, Hh.
    + simpl. by rewrite Hlen.
    + rewrite Hm. simpl. by rewrite <- app_assoc.
    + rewrite Hc, trace_add_message, after_call_calls. by rewrite <- app_assoc.
    + rewrite Hq, trace_add_message. apply after_call_queries.
Qed.

(** ** The outer loop, one iteration at a time *)

Lemma conversation_loop_step (i : nat) (rest : list nat) (tools : list openai_tool) (s : state) :
  conversation_loop (i :: rest) tools s =
  let s1 := add_event (query_event tools s) s in
  match chat_completions_create "gpt-4o-mini" (messages s) tools "auto" (world s) with
  | (Raise e, w) => (Raise e, set_world w s1)
  | (Ok response, w) =>
      match choices response with
      | [] => (Raise (Exception "list index out of range"), set_world w s1)
      | first :: _ =>
          let am := message first in
          let s2 := add_message (AssistantMessage (content am) (tool_calls am))
                                (set_world w s1) in
          if opt_list_truthy (tool_calls am) then
            match dispatch_tool_calls (opt_list_elems (tool_calls am))
                    (add_event (EvPrint (nl +:+ "⚙️ Вызов инструментов...")) s2) with
            | (Ok _, s3) => conversation_loop rest tools s3
            | (Raise e, s3) => (Raise e, s3)
            end
          else (Ok (str_or (content am) no_response_text), s2)
      end
  end.
Proof.
  simpl. run.
  destruct (chat_completions_create _ _ _ _ _) as [[response|e] w]; simpl; [|done].
  destruct (choices response) as [|first others]; simpl; [done|].
  destruct (opt_list_truthy (tool_calls (message first))); simpl; [|done].
  destruct (dispatch_tool_calls _ _) as [[[]|e] s3]; done.
Qed.

Lemma queries_query_event (tools : list openai_tool) (s : state) (w : World) :
  queries (trace (set_world w (add_event (query_event tools s) s))) = queries (trace s) + 1.
Proof. simpl. by rewrite queries_app. Qed.

Lemma queries_print (line : string) (s : state) :
  queries (trace (add_event (EvPrint line) s)) = queries (trace s).
Proof. simpl. rewrite queries_app. unfold queries. simpl. lia. Qed.

(** Each iteration sends exactly one query, so a run sends at most as many
    as it has iterations. *)
Lemma loop_queries_le (tools : list openai_tool) (iterations : list nat) (s : state) :
  queries (trace (conversation_loop iterations tools s).2)
  <= queries (trace s) + length iterations.
Proof.
  revert s. induction iterations as [|i rest IH]; intros s.
  - simpl. lia.
  - rewrite conversation_loop_step. cbv zeta.
    destruct (chat_completions_create _ _ _ _ _) as [[response|e] w].
    2:{ cbn [snd]. rewrite queries_query_event. simpl. lia. }
    destruct (choices response) as [|first others].
    { cbn [snd]. rewrite queries_query_event. simpl. lia. }
    destruct (opt_list_truthy (tool_calls (message first))).
    2:{ cbn [snd]. rewrite trace_add_message, queries_query_event. simpl. lia. }
    match goal with |- context [dispatch_tool_calls ?tcs ?st] =>
      destruct (dispatch_run tcs st) as (texts & _ & _ & _ & Hq);
      destruct (dispatch_tool_calls tcs st) as [[[]|e] s3] end.
    + specialize (IH s3). cbn [snd] in Hq.
      rewrite queries_print, trace_add_message, queries_query_event in Hq.
      simpl. lia.
    + cbn [snd] in *.
      rewrite queries_print, trace_add_message, queries_query_event in Hq.
      simpl. lia.
Qed.

(** A run that returns normally returns either the fixed fallback, after
    one query per iteration, or what the model's last message, which asked
    for no tool, gave as its text. *)
Lemma loop_returns (tools : list openai_tool) (iterations : list nat) (s : state)
    (r : string) (s' : state) :
  conversation_loop iterations tools s = (Ok r, s') ->
  (r = too_long_text /\ queries (trace s') = queries (trace s) + length iterations) \/
  (exists before text calls,
     messages s' = before ++ [AssistantMessage text calls] /\
     opt_list_truthy calls = false /\
     r = str_or text no_response_text).
Proof.
  revert s. induction iterations as [|i rest IH]; intros s.
  - simpl. unfold ret. intros [= <- <-]. left. split; [done|lia].
  - rewrite conversation_loop_step. cbv zeta.
    destruct (chat_completions_create _ _ _ _ _) as [[response|e] w]; [|done].
    destruct (choices response) as [|first others]; [done|].
    destruct (opt_list_truthy (tool_calls (message first))) eqn:Htruthy.
    2:{ intros [= <- <-]. right. eexists _, _, _. split_and!; [|exact Htruthy|done].
        by rewrite messages_add_message. }
    match goal with |- context [dispatch_tool_calls ?tcs ?st] =>
      destruct (dispatch_run tcs st) as (texts & _ & _ & _ & Hq);
      destruct (dispatch_tool_calls tcs st) as [[[]|e] s3] end; [|done].
    intros Hrun. destruct (IH s3 Hrun) as [[-> Hn]|Hfinal]; [left|by right].
    split; [done|]. cbn [snd] in Hq.
    rewrite queries_print, trace_add_message, queries_query_event in Hq.
    simpl. lia.
Qed.

(** Facing a model that always asks for tools, the loop uses up its
    iterations and falls through to the fixed fallback. *)
Lemma loop_exhausts (tools : list openai_tool) (iterations : list nat) (s : state) :
  model_always_requests_tools -> tool_failures_are_Exceptions ->
  exists s',
    conversation_loop iterations tools s = (Ok too_long_text, s') /\
    queries (trace s') = queries (trace s) + length iterations.
Proof.
  intros Hmodel Hx. revert s. induction iterations as [|i rest IH]; intros s.
  - exists s. simpl. split; [done|lia].
  - rewrite conversation_loop_step. cbv zeta.
    destruct (Hmodel "gpt-4o-mini" (messages s) tools "auto" (world s))
      as (am & others & w & -> & Htruthy & Hparses).
    cbn [choices message]. rewrite Htruthy.
    match goal with |- context [dispatch_tool_calls ?tcs ?st] =>
      destruct (dispatch_completes tcs st Hparses Hx)
        as (texts & s3 & -> & _ & _ & _ & Hq) end.
    destruct (IH s3) as (s' & -> & Hn). exists s'. split; [done|].
    rewrite queries_print, trace_add_message, queries_query_event in Hq.
    simpl. lia.
Qed.

(** C1: one invocation of [process_conversation] sends at most 5 model
    queries, however it ends.  When it returns normally, it returns either
    the fixed "took too long" text after exactly 5 queries, or the text of a
    model message that asked for no tool (or the "no response" text in its
    place); and when the model asks for tools at every query (with arguments
    that parse, the tool provider failing only with Exceptions), it returns
    the fixed "took too long" text after exactly 5 queries: there is no 6th. *)
Theorem C1_at_most_five_queries (tools : list openai_tool) (s : state) :
  queries (trace (process_conversation tools s).2) <= queries (trace s) + 5 /\
  (forall r s',
     process_conversation tools s = (Ok r, s') ->
     (r = "Извините, обработка заняла слишком много времени." /\
      queries (trace s') = queries (trace s) + 5) \/
     (exists before text calls,
        messages s' = before ++ [AssistantMessage text calls] /\
        opt_list_truthy calls = false /\
        r = str_or text no_response_text)) /\
  (model_always_requests_tools -> tool_failures_are_Exceptions ->
   exists s',
     process_conversation tools s
       = (Ok "Извините, обработка заняла слишком много времени.", s') /\
     queries (trace s') = queries (trace s) + 5).
Proof.
  unfold process_conversation. split_and!.
  - apply (loop_queries_le tools (seq 0 max_iterations) s).
  - intros r s' Hrun. apply (loop_returns tools _ _ _ _ Hrun).
  - intros Hmodel Hx. apply (loop_exhausts tools (seq 0 max_iterations) s Hmodel Hx).
Qed.

(** C3: for a tool call whose provider either answers or fails with an
    Exception, the invoker does not raise: it returns one text, which is the
    fixed error prefix followed by the error's message when the provider
    failed (or when the first content element has no text), the first
    content element's text when there is one, and the fixed "result is
    empty" text when the answer has no content element; the inner loop then
    appends that text as the call's tool turn and goes on with the
    remaining calls. *)
Theorem C3_invoker_reduces_every_outcome
    (tc : tool_call) (rest : list tool_call) (s : state) :
  let fn := fn_name (tc_function tc) in
  let answer := session_call_tool fn (call_args tc) (world s) in
  parses tc ->
  (forall e, answer.1 = Raise e -> is_Exception e = true) ->
  exists text,
    match answer.1 with
    | Raise (Exception msg) => text = "Ошибка при вызове инструмента: " +:+ msg
    | Raise _ => False
    | Ok res =>
        match result_content res with
        | [] => text = "Инструмент выполнен, но результат пуст"
        | TextContent t :: _ => text = t
        | OtherContent cls :: _ =>
            text = "Ошибка при вызове инструмента: " +:+
                   "'" +:+ cls +:+ "' object has no attribute 'text'"
        end
    end /\
    invoke_tool fn (call_args tc) s
      = (Ok text, set_world answer.2 (add_event (EvCallTool fn (call_args tc)) s)) /\
    dispatch_tool_calls (tc :: rest) s
      = dispatch_tool_calls rest
          (add_message (ToolMessage (tc_id tc) text) (after_call tc (call_args tc) s)).
Proof.
  intros fn answer [members Hp] Hx. subst fn answer.
  assert (Hargs : call_args tc = members) by (unfold call_args; by rewrite Hp).
  rewrite Hargs in *.
  set (answer := (session_call_tool (fn_name (tc_function tc)) members (world s)).1) in *.
  assert (exists text, outcome_text answer = Ok text /\
            match answer with
            | Raise (Exception msg) => text = tool_error_prefix +:+ msg
            | Raise _ => False
            | Ok res =>
                match result_content res with
                | [] => text = empty_result_text
                | TextContent t :: _ => text = t
                | OtherContent cls :: _ =>
                    text = tool_error_prefix +:+ "'" +:+ cls +:+ "' object has no attribute 'text'"
                end
            end) as (text & Ht & Hshape).
  { destruct answer as [res|e]; simpl.
    - destruct (result_content res) as [|[t|cls] others]; eauto.
    - specialize (Hx e eq_refl). destruct e; try discriminate. eauto. }
  exists text. split_and!.
  - exact Hshape.
  - rewrite invoke_tool_eq. fold answer. by rewrite Ht.
  - rewrite dispatch_cons, handle_tool_call_eq, Hp. cbn [items].
    fold answer. by rewrite Ht.
Qed.

Lemma outcome_text_recorded (answer : result call_tool_result) :
  (forall e, answer = Raise e -> is_Exception e = true) ->
  exists text, outcome_text answer = Ok text /\ recorded_text answer text.
Proof.
  intros Hx. destruct answer as [res|e]; simpl.
  - destruct (result_content res) as [|[t|cls] others]; eauto.
  - specialize (Hx e eq_refl). destruct e; try discriminate. eauto.
Qed.

(** The pass, call by call: each call is made in the world the call before
    it left, and the text recorded for it is the one its own answer gives. *)
Lemma dispatch_answers (tcs : list tool_call) (s : state) :
  Forall parses tcs -> tool_failures_are_Exceptions ->
  exists texts s',
    dispatch_tool_calls tcs s = (Ok tt, s') /\
    length texts = length tcs /\
    messages s' = messages s ++ zip_with ToolMessage (map tc_id tcs) texts /\
    calls_made (trace s') = calls_made (trace s) ++ map request_of tcs /\
    calls_answered (world s) tcs texts (world s').
Proof.
  intros Hp Hx. revert s. induction Hp as [|tc rest Htc _ IH]; intros s.
  - exists [], s. simpl. rewrite !app_nil_r. split_and!; done.
  - destruct Htc as [members Hparse].
    assert (Hargs : call_args tc = members) by (unfold call_args; by rewrite Hparse).
    destruct (session_call_tool (fn_name (tc_function tc)) members (world s))
      as [answer w] eqn:Hcall.
    destruct (outcome_text_recorded answer) as (text & Ht & Hrec).
    { intros e ->. by eapply Hx. }
    assert (Hhead : handle_tool_call tc s
              = (Ok tt, add_message (ToolMessage (tc_id tc) text) (after_call tc members s))).
    { rewrite handle_tool_call_eq, Hparse. cbn [items]. rewrite Hcall. cbn [fst].
      by rewrite Ht. }
    destruct (IH (add_message (ToolMessage (tc_id tc) text) (after_call tc members s)))
      as (texts & s' & Hd & Hlen & Hm & Hc & Hans).
    exists (text :: texts), s'. split_and!.
    + by rewrite dispatch_cons, Hhead.
    + simpl. by rewrite Hlen.
    + rewrite Hm. simpl. by rewrite <- app_assoc.
    + rewrite Hc, trace_add_message, after_call_calls. simpl.
      unfold request_of at 2. rewrite Hargs. by rewrite <- app_assoc.
    + cbn [calls_answered]. rewrite Hargs, Hcall. cbn [fst snd]. split; [exact Hrec|].
      unfold after_call in Hans. cbn [world add_message set_world] in Hans.
      by rewrite Hcall in Hans.
Qed.

(** C4: in a pass over the tool calls of one assistant message (their
    arguments parsing), the provider may fail, with an Exception, on any of
    the calls: the pass still completes, every call is sent to the
    provider, in the order of the requests, each in the world the call
    before it left, and every call gets its tool turn, in that order, with
    the text its own answer gives: the error prefix and the error's message
    for a call that failed, the first content element's text or the "result
    is empty" text for one that did not. *)
Theorem C4_failures_do_not_stop_remaining_calls (tcs : list tool_call) (s : state) :
  Forall parses tcs ->
  tool_failures_are_Exceptions ->
  exists texts s',
    dispatch_tool_calls tcs s = (Ok tt, s') /\
    length texts = length tcs /\
    messages s' = messages s ++ zip_with ToolMessage (map tc_id tcs) texts /\
    calls_made (trace s') = calls_made (trace s) ++ map request_of tcs /\
    calls_answered (world s) tcs texts (world s').
Proof.
  intros Hp Hx.
  destruct (dispatch_answers tcs s Hp Hx) as (texts & s' & Hd & Hlen & Hm & Hc & Hans).
  by exists texts, s'.
Qed.

(** C2 (the code departs from it): a tool call whose argument text
    [json.loads] rejects, or parses to something that is not an object, is
    not reduced to a failure text.  Wherever the call stands among the
    requests of its turn, the error leaves the inner loop there: no tool
    turn is appended for the call and the calls after it are not made.  It
    leaves [process_conversation] too: when the first request of the first
    response is such a call, the assistant turn stays in the history
    unanswered, no tool has been called and no further model query is sent. *)
Theorem C2_parse_failure_leaves_the_loop :
  (forall (tc : tool_call) (rest : list tool_call) (s : state) (e : exn),
     json_loads (fn_arguments (tc_function tc)) = Raise e ->
     dispatch_tool_calls (tc :: rest) s = (Raise e, s)) /\
  (forall (tc : tool_call) (rest : list tool_call) (s : state) (v : json) (e : exn),
     json_loads (fn_arguments (tc_function tc)) = Ok v ->
     items v = Raise e ->
     dispatch_tool_calls (tc :: rest) s = (Raise e, s)) /\
  (forall (tools : list openai_tool) (s : state) (text : option string)
          (tc : tool_call) (rest : list tool_call) (others : list choice)
          (w : World) (e : exn),
     chat_completions_create "gpt-4o-mini" (messages s) tools "auto" (world s)
       = (Ok {| choices :=
                  {| message := {| content := text; tool_calls := Some (tc :: rest) |} |}
                  :: others |}, w) ->
     json_loads (fn_arguments (tc_function tc)) = Raise e ->
     exists s',
       process_conversation tools s = (Raise e, s') /\
       messages s' = messages s ++ [AssistantMessage text (Some (tc :: rest))] /\
       calls_made (trace s') = calls_made (trace s) /\
       queries (trace s') = queries (trace s) + 1).
Proof.
  split_and!.
  - intros tc rest s e Hp. by rewrite dispatch_cons, handle_tool_call_eq, Hp.
  - intros tc rest s v e Hp Hitems. by rewrite dispatch_cons, handle_tool_call_eq, Hp, Hitems.
  - intros tools s text tc rest others w e Hq Hp. unfold process_conversation.
    change (seq 0 max_iterations) with (0 :: seq 1 4).
    rewrite conversation_loop_step, Hq. cbv zeta. cbn [choices message tool_calls content].
    cbn [opt_list_truthy list_truthy opt_list_elems].
    rewrite dispatch_cons, handle_tool_call_eq, Hp.
    eexists. split_and!; [done| | |].
    + done.
    + simpl. rewrite !calls_made_app. simpl. by rewrite !app_nil_r.
    + rewrite queries_print, trace_add_message. apply queries_query_event.
Qed.

(** C8: when the model's message asks for no tool ([tool_calls] absent or
    empty) and has no text ([content] absent or empty), the iteration ends
    the loop with the fixed "could not produce a response" text, the
    message having been appended to the history; that text differs from the
    "took too long" text. *)
Theorem C8_empty_answer_falls_back
    (i : nat) (rest : list nat) (tools : list openai_tool) (s : state)
    (am : chat_message) (others : list choice) (w : World) :
  chat_completions_create "gpt-4o-mini" (messages s) tools "auto" (world s)
    = (Ok {| choices := {| message := am |} :: others |}, w) ->
  (tool_calls am = None \/ tool_calls am = Some []) ->
  (content am = None \/ content am = Some "") ->
  let s' := add_message (AssistantMessage (content am) (tool_calls am))
              (set_world w (add_event (query_event tools s) s)) in
  conversation_loop (i :: rest) tools s
    = (Ok "Извините, я не смог сформировать ответ.", s') /\
  process_conversation tools s = (Ok "Извините, я не смог сформировать ответ.", s') /\
  "Извините, я не смог сформировать ответ."
    <> "Извините, обработка заняла слишком много времени.".
Proof.
  intros Hq Hcalls Htext s'. subst s'.
  assert (Hstep : forall j more, conversation_loop (j :: more) tools s
            = (Ok no_response_text,
               add_message (AssistantMessage (content am) (tool_calls am))
                 (set_world w (add_event (query_event tools s) s)))).
  { intros j more. rewrite conversation_loop_step, Hq. cbv zeta. cbn [choices message].
    destruct Hcalls as [-> | ->]; destruct Htext as [-> | ->]; done. }
  split_and!.
  - apply Hstep.
  - apply (Hstep 0 (seq 1 4)).
  - done.
Qed.

(** C9: when the model's first message has a non-empty text and asks for
    no tool, [process_conversation] returns that text as it is, after one
    query and no tool call, and the history has grown by exactly that one
    assistant turn. *)
Theorem C9_direct_answer_returned_unchanged
    (tools : list openai_tool) (s : state) (am : chat_message)
    (others : list choice) (w : World) (answer : string) :
  chat_completions_create "gpt-4o-mini" (messages s) tools "auto" (world s)
    = (Ok {| choices := {| message := am |} :: others |}, w) ->
  (tool_calls am = None \/ tool_calls am = Some []) ->
  content am = Some answer ->
  answer <> "" ->
  exists s',
    process_conversation tools s = (Ok answer, s') /\
    messages s' = messages s ++ [AssistantMessage (Some answer) (tool_calls am)] /\
    queries (trace s') = queries (trace s) + 1 /\
    calls_made (trace s') = calls_made (trace s).
Proof.
  intros Hq Hcalls Htext Hne. unfold process_conversation.
  change (seq 0 max_iterations) with (0 :: seq 1 4).
  rewrite conversation_loop_step, Hq. cbv zeta. cbn [choices message].
  assert (Hfalse : opt_list_truthy (tool_calls am) = false)
    by (destruct Hcalls as [-> | ->]; done).
  rewrite Hfalse, Htext. eexists. split_and!.
  - f_equal. f_equal. destruct answer; done.
  - done.
  - rewrite trace_add_message. apply queries_query_event.
  - simpl. rewrite calls_made_app. simpl. by rewrite app_nil_r.
Qed.

(** ** Tool turns and the requests they answer *)

Lemma in_order_block (ids texts : list string) (rest : list message_dict) :
  (forall p, tool_turns_in_order p rest = true) ->
  tool_turns_in_order ids (zip_with ToolMessage ids texts ++ rest) = true.
Proof.
  intros Hrest. revert texts. induction ids as [|i ids IH]; intros texts.
  - simpl. apply Hrest.
  - destruct texts as [|t texts]; simpl.
    + apply Hrest.
    + rewrite bool_decide_eq_true_2 by done. apply IH.
Qed.

Lemma in_order_app (p : list string) (log rest : list message_dict) :
  tool_turns_in_order p log = true ->
  (forall q, tool_turns_in_order q rest = true) ->
  tool_turns_in_order p (log ++ rest) = true.
Proof.
  intros Hlog Hrest. revert p Hlog. induction log as [|m log IH]; intros p Hlog.
  - apply Hrest.
  - destruct m as [t|t|atext calls|i t]; simpl in *; try by apply IH.
    destruct p as [|p0 p]; [done|].
    apply andb_true_iff in Hlog as [-> Hlog]. by apply IH.
Qed.

Lemma tool_ids_length (block : list message_dict) :
  Forall is_tool_message block -> length (tool_ids block) = length block.
Proof.
  induction 1 as [|m block Hm _ IH]; [done|].
  destruct m; simpl in *; try done. by rewrite IH.
Qed.

(** What the scan accepts: a tool turn either follows an assistant turn,
    with only tool turns between, and then the block up to it carries the
    identifiers of that turn's first requests, in order; or only tool turns
    precede it, and then they carry the first of the pending identifiers. *)
Lemma tool_turns_in_order_sound (log : list message_dict) :
  forall (p : list string) (pre : list message_dict) (i text : string)
         (post : list message_dict),
    tool_turns_in_order p log = true ->
    log = pre ++ ToolMessage i text :: post ->
    (exists pre0 atext calls block,
       pre = pre0 ++ AssistantMessage atext calls :: block /\
       Forall is_tool_message block /\
       tool_ids block ++ [i] = take (S (length block)) (request_ids calls)) \/
    (Forall is_tool_message pre /\ tool_ids pre ++ [i] = take (S (length pre)) p).
Proof.
  induction log as [|m log IH]; intros p pre i text post Hscan Hlog.
  - by destruct pre.
  - destruct pre as [|m' pre]; simpl in Hlog; injection Hlog as -> Hlog.
    + right. simpl in Hscan. destruct p as [|p0 p]; [done|].
      apply andb_true_iff in Hscan as [Heq _]. apply bool_decide_eq_true in Heq as ->.
      split; [constructor|done].
    + assert (Hleft :
                (exists pre0 atext calls block,
                   pre = pre0 ++ AssistantMessage atext calls :: block /\
                   Forall is_tool_message block /\
                   tool_ids block ++ [i] = take (S (length block)) (request_ids calls)) ->
                exists pre0 atext calls block,
                  m' :: pre = pre0 ++ AssistantMessage atext calls :: block /\
                  Forall is_tool_message block /\
                  tool_ids block ++ [i] = take (S (length block)) (request_ids calls)).
      { intros (pre0 & atext & calls & block & -> & Hb & Hids).
        by exists (m' :: pre0), atext, calls, block. }
      destruct m' as [t|t|atext calls|i0 t0]; simpl in Hscan.
      * destruct (IH [] pre i text post Hscan Hlog) as [H|[_ H]].
        -- left. by apply Hleft.
        -- by destruct (tool_ids pre).
      * destruct (IH [] pre i text post Hscan Hlog) as [H|[_ H]].
        -- left. by apply Hleft.
        -- by destruct (tool_ids pre).
      * destruct (IH _ pre i text post Hscan Hlog) as [H|[Hb H]].
        -- left. by apply Hleft.
        -- left. by exists [], atext, calls, pre.
      * destruct p as [|p0 p]; [done|].
        apply andb_true_iff in Hscan as [Heq Hscan].
        apply bool_decide_eq_true in Heq as ->.
        destruct (IH p pre i text post Hscan Hlog) as [H|[Hb H]].
        -- left. by apply Hleft.
        -- right. split; [by constructor|]. simpl. by rewrite H.
Qed.

(** The loop appends to the history, and what it appends passes the scan
    from any pending list: it is empty or starts with an assistant turn. *)
Lemma loop_appends (tools : list openai_tool) (iterations : list nat) (s : state) :
  exists appended,
    messages (conversation_loop iterations tools s).2 = messages s ++ appended /\
    (forall p, tool_turns_in_order p appended = true) /\
    (request_ids_unique -> Forall unique_requests appended).
Proof.
  revert s. induction iterations as [|i rest IH]; intros s.
  - exists []. simpl. by rewrite app_nil_r.
  - rewrite conversation_loop_step. cbv zeta.
    destruct (chat_completions_create _ _ _ _ _) as [[response|e] w] eqn:Hq.
    2:{ exists []. simpl. by rewrite app_nil_r. }
    destruct (choices response) as [|first others] eqn:Hch.
    { exists []. simpl. by rewrite app_nil_r. }
    set (am := message first).
    assert (Huniq : request_ids_unique ->
              unique_requests (AssistantMessage (content am) (tool_calls am))).
    { intros Hu. specialize (Hu _ _ _ _ _ _ _ Hq). rewrite Hch in Hu.
      by apply Forall_cons in Hu as [Hu _]. }
    destruct (opt_list_truthy (tool_calls am)).
    2:{ exists [AssistantMessage (content am) (tool_calls am)]. split_and!; [done|done|].
        intros Hu. constructor; [by apply Huniq|constructor]. }
    match goal with |- context [dispatch_tool_calls ?tcs ?st] =>
      destruct (dispatch_run tcs st) as (texts & Hm & _ & _ & _);
      destruct (dispatch_tool_calls tcs st) as [[[]|e] s3] end; cbn [snd] in Hm.
    + destruct (IH s3) as (appended & Hm' & Hscan & Hu').
      exists (AssistantMessage (content am) (tool_calls am)
              :: zip_with ToolMessage (request_ids (tool_calls am)) texts ++ appended).
      split_and!.
      * rewrite Hm', Hm. simpl. rewrite <- !app_assoc. done.
      * intros p. simpl. by apply in_order_block.
      * intros Hu. constructor; [by apply Huniq|]. apply Forall_app. split; [|by apply Hu'].
        apply Forall_forall. intros m Hin.
        apply list_elem_of_lookup in Hin as [k Hk].
        apply lookup_zip_with_Some in Hk as (x & y & -> & _ & _). done.
    + exists (AssistantMessage (content am) (tool_calls am)
              :: zip_with ToolMessage (request_ids (tool_calls am)) texts ++ []).
      split_and!.
      * cbn [snd]. rewrite Hm. simpl. rewrite <- !app_assoc. by rewrite app_nil_r.
      * intros p. simpl. by apply in_order_block.
      * intros Hu. constructor; [by apply Huniq|]. rewrite app_nil_r.
        apply Forall_forall. intros m Hin.
        apply list_elem_of_lookup in Hin as [k Hk].
        apply lookup_zip_with_Some in Hk as (x & y & -> & _ & _). done.
Qed.

Lemma block_answers_prefix (block : list message_dict) (i : string) (ids : list string) :
  Forall is_tool_message block ->
  tool_ids block ++ [i] = take (S (length block)) ids ->
  tool_ids block = take (length block) ids /\ ids !! length block = Some i.
Proof.
  intros Hb Hids. pose proof (tool_ids_length block Hb) as Hlen. split.
  - assert (H : take (length block) (tool_ids block ++ [i])
                = take (length block) (take (S (length block)) ids)) by by rewrite Hids.
    rewrite take_take in H. rewrite Nat.min_l in H by lia.
    rewrite <- H. rewrite <- Hlen at 1. by rewrite take_app_length.
  - assert (H : (tool_ids block ++ [i]) !! length block
                = take (S (length block)) ids !! length block) by by rewrite Hids.
    rewrite <- Hlen in H at 1. rewrite list_lookup_middle in H by done.
    rewrite lookup_take_lt in H by lia. done.
Qed.

(** C5: whatever way a run of [process_conversation] ends, the turns it
    has appended to the history are such that every tool turn follows an
    assistant turn with only tool turns between them; the tool turns of that
    block up to it carry the identifiers of the assistant turn's first
    requests, in the order of the requests, so the turn itself carries the
    identifier of the request at its own position; and when the model
    provider gives the requests of a message different identifiers (the data
    model's assumption), no other request of that message has that
    identifier.  Every earlier state of the history is a prefix of the final
    one, and the property of a tool turn only speaks of what precedes it.
    A history that passed the scan before the run passes it after. *)
Theorem C5_tool_turns_answer_requests_in_order (tools : list openai_tool) (s : state) :
  (exists appended,
    messages (process_conversation tools s).2 = messages s ++ appended /\
    forall pre i text post,
      appended = pre ++ ToolMessage i text :: post ->
      exists pre0 atext calls block,
        pre = pre0 ++ AssistantMessage atext calls :: block /\
        Forall is_tool_message block /\
        tool_ids block = take (length block) (map tc_id (opt_list_elems calls)) /\
        map tc_id (opt_list_elems calls) !! length block = Some i /\
        (request_ids_unique ->
         forall j, map tc_id (opt_list_elems calls) !! j = Some i -> j = length block)) /\
  (tool_turns_in_order [] (messages s) = true ->
   tool_turns_in_order [] (messages (process_conversation tools s).2) = true).
Proof.
  destruct (loop_appends tools (seq 0 max_iterations) s) as (appended & Hm & Hscan & Hu).
  split; [|intros Hinit; unfold process_conversation; rewrite Hm; by apply in_order_app].
  exists appended. split; [exact Hm|].
  intros pre i text post Happ.
  destruct (tool_turns_in_order_sound appended [] pre i text post (Hscan []) Happ)
    as [(pre0 & atext & calls & block & Hpre & Hb & Hids)|[_ Hids]].
  2:{ by destruct (tool_ids pre). }
  destruct (block_answers_prefix block i _ Hb Hids) as [Hprefix Hat].
  exists pre0, atext, calls, block. split_and!; [done|done|exact Hprefix|exact Hat|].
  intros Huniq j Hj. specialize (Hu Huniq).
  assert (Hnd : unique_requests (AssistantMessage atext calls)).
  { rewrite Forall_forall in Hu. apply Hu. rewrite Happ, Hpre.
    rewrite <- !app_assoc. apply elem_of_app. right. apply elem_of_cons. by left. }
  simpl in Hnd. by eapply NoDup_lookup.
Qed.

(** ** The shell around the loop *)

Lemma chat_loop_step (fuel : nat) (tools : list openai_tool) (s : state) :
  chat_loop (S fuel) tools s =
  let s1 := add_event (EvInput input_prompt) s in
  match input input_prompt (world s) with
  | (Raise e, w) => (Raise e, set_world w s1)
  | (Ok line, w) =>
      let user_input := str_strip line in
      if bool_decide (str_lower user_input ∈ exit_words) then
        (Ok (Some tt), add_event (EvPrint goodbye_line) (set_world w s1))
      else if negb (opt_str_truthy (Some user_input)) then
        chat_loop fuel tools (set_world w s1)
      else
        match process_conversation tools
                (add_message (UserMessage user_input) (set_world w s1)) with
        | (Ok final_response, s2) =>
            chat_loop fuel tools
              (add_event (EvPrint (nl +:+ "🤖 Ассистент: " +:+ final_response)) s2)
        | (Raise e, s2) => (Raise e, s2)
        end
  end.
Proof.
  simpl. run.
  destruct (input input_prompt (world s)) as [[line|e] w]; simpl; [|done].
  destruct (bool_decide _); [done|].
  destruct (negb _); [done|].
  destruct (process_conversation _ _) as [[final_response|e] s2]; done.
Qed.

Lemma print_tools_run (catalog : list mcp_tool) (s : state) :
  print_tools catalog s
  = (Ok tt,
     {| world := world s; messages := messages s;
        trace := trace s ++ map (fun tool => EvPrint ("  • " +:+ name tool +:+ ": "
                                   +:+ opt_str_format (description tool))) catalog |}).
Proof.
  revert s. induction catalog as [|tool rest IH]; intros s.
  - simpl. unfold ret. rewrite app_nil_r. by destruct s.
  - simpl. run. rewrite IH. simpl. by rewrite <- app_assoc.
Qed.

(** Once the session is up, [main] is the chat loop, followed by leaving
    the two [async with] blocks whichever way the chat loop ended. *)
Lemma main_started (fuel : nat) (s : state) (w1 w2 w3 w4 : World) (catalog : list mcp_tool) :
  stdio_client_enter server_params (world s) = (Ok tt, w1) ->
  client_session_enter w1 = (Ok tt, w2) ->
  session_initialize w2 = (Ok tt, w3) ->
  session_list_tools w3 = (Ok catalog, w4) ->
  main fuel s
  = (match (chat_loop fuel (convert_mcp_tools_to_openai catalog)
              (chat_start s w4 catalog)).1 with
     | Ok r => Ok r
     | Raise e =>
         Raise (leaving_contexts e
                  (chat_loop fuel (convert_mcp_tools_to_openai catalog)
                     (chat_start s w4 catalog)).2)
     end,
     close_session
       (chat_loop fuel (convert_mcp_tools_to_openai catalog) (chat_start s w4 catalog)).2).
Proof.
  intros H1 H2 H3 H4.
  unfold main, session_body, with_context, bind, print, emit, world_op, ret.
  cbn [world add_event set_world set_messages trace messages].
  rewrite H1. cbn [world add_event set_world set_messages trace messages].
  rewrite H2. cbn [world add_event set_world set_messages trace messages].
  rewrite H3. cbn [world add_event set_world set_messages trace messages].
  rewrite H4. cbn [world add_event set_world set_messages trace messages].
  rewrite print_tools_run. cbn [world add_event set_world set_messages trace messages].
  match goal with |- context [chat_loop _ _ ?st] =>
    replace st with (chat_start s w4 catalog) end.
  - destruct (chat_loop _ _ _) as [[r|e] s']; done.
  - unfold chat_start, startup_events, add_event, set_messages.
    cbn [world messages trace]. f_equal. rewrite <- !app_assoc. done.
Qed.

Lemma inputs_read_print (tr : list event) (line : string) :
  inputs_read (tr ++ [EvPrint line]) = inputs_read tr.
Proof. unfold inputs_read. rewrite List.filter_app, length_app. simpl. lia. Qed.

(** C7, as the code has it: a failure of the model query leaves the loop
    at once, without retry (the failing query is the iteration's only one)
    and without being turned into a text; the chat loop does not catch it
    either, so the turn's failure is the chat loop's.  The two [async with]
    blocks are then left, and what leaves [main] is what their exits raise
    in the failure's place; the program ends there: whichever handler of the
    entry point applies, or none, nothing is read from the console after the
    failure and the history stays as the failure left it.  When what leaves
    [main] is an Exception, the handler catches it, prints the error line
    with the message of that exception and the program ends normally. *)
Theorem C7_model_failure_ends_the_session :
  (forall (i : nat) (rest : list nat) (tools : list openai_tool) (s : state)
          (e : exn) (w : World),
     chat_completions_create "gpt-4o-mini" (messages s) tools "auto" (world s)
       = (Raise e, w) ->
     conversation_loop (i :: rest) tools s
       = (Raise e, set_world w (add_event (query_event tools s) s))) /\
  (forall (fuel : nat) (tools : list openai_tool) (s : state) (line : string)
          (w : World) (e : exn) (s2 : state),
     input input_prompt (world s) = (Ok line, w) ->
     str_lower (str_strip line) ∉ exit_words ->
     str_strip line <> "" ->
     process_conversation tools
       (add_message (UserMessage (str_strip line))
          (set_world w (add_event (EvInput input_prompt) s))) = (Raise e, s2) ->
     chat_loop (S fuel) tools s = (Raise e, s2)) /\
  (forall (fuel : nat) (s : state) (w1 w2 w3 w4 : World) (catalog : list mcp_tool)
          (e : exn) (s_end : state),
     stdio_client_enter server_params (world s) = (Ok tt, w1) ->
     client_session_enter w1 = (Ok tt, w2) ->
     session_initialize w2 = (Ok tt, w3) ->
     session_list_tools w3 = (Ok catalog, w4) ->
     chat_loop fuel (convert_mcp_tools_to_openai catalog) (chat_start s w4 catalog)
       = (Raise e, s_end) ->
     main fuel s = (Raise (leaving_contexts e s_end), close_session s_end) /\
     inputs_read (trace (dunder_main fuel s).2) = inputs_read (trace s_end) /\
     messages (dunder_main fuel s).2 = messages s_end /\
     (forall report,
        leaving_contexts e s_end = Exception report ->
        dunder_main fuel s
          = (Ok (Some tt), add_event (EvPrint (nl +:+ "❌ Ошибка: " +:+ report))
                             (close_session s_end)))).
Proof.
  split_and!.
  - intros i rest tools s e w Hq. by rewrite conversation_loop_step, Hq.
  - intros fuel tools s line w e s2 Hin Hexit Hne Hrun.
    rewrite chat_loop_step, Hin. cbv zeta.
    rewrite bool_decide_eq_false_2 by done.
    assert (Htruthy : opt_str_truthy (Some (str_strip line)) = true)
      by (destruct (str_strip line); done).
    rewrite Htruthy. cbn [negb]. by rewrite Hrun.
  - intros fuel s w1 w2 w3 w4 catalog e s_end H1 H2 H3 H4 Hchat.
    assert (Hmain : main fuel s = (Raise (leaving_contexts e s_end), close_session s_end))
      by (rewrite (main_started fuel s w1 w2 w3 w4 catalog H1 H2 H3 H4); by rewrite Hchat).
    split_and!.
    + exact Hmain.
    + unfold dunder_main. rewrite Hmain.
      destruct (leaving_contexts e s_end); cbn [snd]; try done;
        unfold bind, print, emit, ret; cbn [snd trace add_event close_session set_world];
        apply inputs_read_print.
    + unfold dunder_main. rewrite Hmain.
      by destruct (leaving_contexts e s_end).
    + intros report Hleaving. unfold dunder_main. by rewrite Hmain, Hleaving.
Qed.

End Loop.

(** * The properties on concrete runs *)

Import Demo.

Lemma flaky_tools_fail_with_Exceptions (model : list message_dict -> result completion) :
  tool_failures_are_Exceptions (RT := oracle_runtime model flaky_tools weather_catalog).
Proof.
  intros fn a w e w' H. simpl in H. unfold flaky_tools in H.
  destruct (String.eqb fn "get_forecast"); [by injection H as <- _|].
  destruct (String.eqb fn "get_nothing"); discriminate H.
Qed.

(** Scenario D: the model asks for the same two tools at every query; the
    run ends with the fixed text after five queries. *)
Lemma C1_relentless_model_witness :
  exists s',
    process_conversation (RT := relentless_runtime) [] (asked relentless_runtime [])
      = (Ok "Извините, обработка заняла слишком много времени.", s') /\
    queries (trace s') = 0 + 5.
Proof.
  apply (C1_at_most_five_queries (RT := relentless_runtime) [] (asked relentless_runtime [])).
  - intros model history tools tool_choice w.
    eexists _, _, _. split; [reflexivity|]. split; [reflexivity|].
    repeat constructor; exists []; reflexivity.
  - apply flaky_tools_fail_with_Exceptions.
Defined.

(** A request whose argument text is not JSON: the run ends with the
    parser's error, the assistant turn unanswered, no tool called. *)
Lemma C2_malformed_arguments_witness :
  exists s',
    process_conversation (RT := sloppy_runtime) [] (asked sloppy_runtime [])
      = (Raise (Exception
           "Expecting property name enclosed in double quotes: line 1 column 2 (char 1)"),
         s') /\
    messages s'
      = messages (asked sloppy_runtime [])
        ++ [AssistantMessage None
              (Some [call "call_1" "get_current_weather" "{city: Moscow}";
                     call "call_2" "get_forecast" "{}"])] /\
    calls_made (trace s') = calls_made (trace (asked sloppy_runtime [])) /\
    queries (trace s') = queries (trace (asked sloppy_runtime [])) + 1.
Proof.
  apply (proj2 (proj2 (C2_parse_failure_leaves_the_loop (RT := sloppy_runtime))) []
           (asked sloppy_runtime []) None
           (call "call_1" "get_current_weather" "{city: Moscow}")
           [call "call_2" "get_forecast" "{}"] [] []).
  - reflexivity.
  - reflexivity.
Defined.

(** Scenario E: the provider answers a call with no content element. *)
Lemma C3_empty_result_witness :
  exists text,
    text = "Инструмент выполнен, но результат пуст" /\
    dispatch_tool_calls (RT := polite_runtime)
      [call "call_3" "get_nothing" "{}"; call "call_2" "get_current_weather" "{}"]
      (asked polite_runtime [])
    = dispatch_tool_calls (RT := polite_runtime)
        [call "call_2" "get_current_weather" "{}"]
        (add_message (ToolMessage "call_3" text)
           (after_call (call "call_3" "get_nothing" "{}") [] (asked polite_runtime []))).
Proof.
  destruct (C3_invoker_reduces_every_outcome (RT := polite_runtime)
              (call "call_3" "get_nothing" "{}")
              [call "call_2" "get_current_weather" "{}"] (asked polite_runtime []))
    as (text & Hshape & _ & Hgo).
  - exists []. reflexivity.
  - intros e H. discriminate H.
  - exists text. split; [exact Hshape|exact Hgo].
Defined.

(** A pass over three calls, the first of which fails and the last of
    which gives nothing. *)
Lemma C4_first_call_fails_witness :
  exists s',
    dispatch_tool_calls (RT := polite_runtime)
      [call "call_1" "get_forecast" "{}";
       call "call_2" "get_current_weather" "{}";
       call "call_3" "get_nothing" "{}"] (asked polite_runtime [])
      = (Ok tt, s') /\
    messages s'
      = messages (asked polite_runtime [])
        ++ [ToolMessage "call_1" "Ошибка при вызове инструмента: Connection closed";
            ToolMessage "call_2" "Sunny, 21 C";
            ToolMessage "call_3" "Инструмент выполнен, но результат пуст"] /\
    calls_made (trace s')
      = [] ++ [("get_forecast", []); ("get_current_weather", []); ("get_nothing", [])].
Proof.
  destruct (C4_failures_do_not_stop_remaining_calls (RT := polite_runtime)
              [call "call_1" "get_forecast" "{}";
               call "call_2" "get_current_weather" "{}";
               call "call_3" "get_nothing" "{}"] (asked polite_runtime []))
    as (texts & s' & Hrun & Hlen & Hm & Hcalls & Hans).
  - repeat constructor; exists []; reflexivity.
  - apply flaky_tools_fail_with_Exceptions.
  - exists s'. split; [exact Hrun|]. split; [|exact Hcalls].
    destruct texts as [|t1 [|t2 [|t3 [|t4 texts]]]]; try discriminate Hlen.
    destruct Hans as (H1 & H2 & H3 & _). simpl in H1, H2, H3. subst t1 t2 t3.
    exact Hm.
Defined.

(** The model answers at once with an empty text and an empty list of
    tool calls. *)
Lemma C8_silent_model_witness :
  process_conversation (RT := silent_runtime) [] (asked silent_runtime [])
    = (Ok "Извините, я не смог сформировать ответ.",
       add_message (AssistantMessage (Some "") (Some []))
         (add_event (query_event [] (asked silent_runtime [])) (asked silent_runtime []))).
Proof.
  apply (C8_empty_answer_falls_back (RT := silent_runtime) 0 [] []
           (asked silent_runtime [])
           {| content := Some ""; tool_calls := Some [] |} [] []).
  - reflexivity.
  - right. reflexivity.
  - right. reflexivity.
Defined.

(** Scenario A: the model answers at once. *)
Lemma C9_direct_answer_witness :
  exists s',
    process_conversation (RT := direct_runtime) [] (asked direct_runtime [])
      = (Ok "Sunny.", s') /\
    messages s'
      = messages (asked direct_runtime []) ++ [AssistantMessage (Some "Sunny.") None] /\
    queries (trace s') = 0 + 1 /\
    calls_made (trace s') = [].
Proof.
  apply (C9_direct_answer_returned_unchanged (RT := direct_runtime) []
           (asked direct_runtime [])
           {| content := Some "Sunny."; tool_calls := None |} [] [] "Sunny.").
  - reflexivity.
  - left. reflexivity.
  - reflexivity.
  - discriminate.
Defined.

(** The relentless model names its two requests differently; every tool
    turn of the run answers the request at its position, and no other. *)
Lemma C5_relentless_model_witness :
  exists appended,
    messages (process_conversation (RT := relentless_runtime) []
                (asked relentless_runtime [])).2
      = messages (asked relentless_runtime []) ++ appended /\
    forall pre i text post,
      appended = pre ++ ToolMessage i text :: post ->
      exists pre0 atext calls block,
        pre = pre0 ++ AssistantMessage atext calls :: block /\
        Forall is_tool_message block /\
        tool_ids block = take (length block) (map tc_id (opt_list_elems calls)) /\
        map tc_id (opt_list_elems calls) !! length block = Some i /\
        forall j, map tc_id (opt_list_elems calls) !! j = Some i -> j = length block.
Proof.
  destruct (C5_tool_turns_answer_requests_in_order (RT := relentless_runtime) []
              (asked relentless_runtime [])) as [(appended & Hm & Hturns) _].
  exists appended. split; [exact Hm|].
  intros pre i text post Happ.
  destruct (Hturns pre i text post Happ)
    as (pre0 & atext & calls & block & Hpre & Hb & Hprefix & Hat & Huniq).
  exists pre0, atext, calls, block. split_and!; [done|done|done|done|].
  apply Huniq.
  intros model history tools tool_choice w r w' Hq. injection Hq as <- _.
  constructor; [|constructor]. simpl.
  apply NoDup_cons. split; [|apply NoDup_singleton].
  rewrite list_elem_of_singleton. discriminate.
Defined.

(** The model endpoint is down when the first question is asked: the
    program reports the exception group the two task groups made of the
    failure, and ends. *)
Lemma C7_endpoint_down_witness :
  dunder_main (RT := failing_runtime) 3
    (@initial_state failing_runtime ["weather?"; "again?"; "exit"])
  = (Ok (Some tt),
     @Build_state failing_runtime ["again?"; "exit"]
       [SystemMessage system_prompt; UserMessage "weather?"]
       (startup_events weather_catalog
        ++ [EvInput input_prompt;
            EvQuery "gpt-4o-mini"
              [SystemMessage system_prompt; UserMessage "weather?"]
              (convert_mcp_tools_to_openai weather_catalog) "auto";
            EvPrint (error_line "unhandled errors in a TaskGroup (1 sub-exception)")])).
Proof.
  destruct (C7_model_failure_ends_the_session (RT := failing_runtime))
    as (Hloop & Hchat & Hmain).
  destruct (Hmain 3 (@initial_state failing_runtime ["weather?"; "again?"; "exit"])
              ["weather?"; "again?"; "exit"] ["weather?"; "again?"; "exit"]
              ["weather?"; "again?"; "exit"] ["weather?"; "again?"; "exit"]
              weather_catalog (Exception "Connection error.")
              (@Build_state failing_runtime ["again?"; "exit"]
                 [SystemMessage system_prompt; UserMessage "weather?"]
                 (startup_events weather_catalog
                  ++ [EvInput input_prompt;
                      EvQuery "gpt-4o-mini"
                        [SystemMessage system_prompt; UserMessage "weather?"]
                        (convert_mcp_tools_to_openai weather_catalog) "auto"])))
    as (_ & _ & _ & Hrun).
  - reflexivity.
  - reflexivity.
  - reflexivity.
  - reflexivity.
  - apply (Hchat 2 _ _ "weather?" ["again?"; "exit"]).
    + reflexivity.
    + intros Hin.
      repeat (apply elem_of_cons in Hin as [Hin|Hin]; [discriminate Hin|]).
      by apply elem_of_nil in Hin.
    + discriminate.
    + unfold process_conversation. change (seq 0 max_iterations) with (0 :: seq 1 4).
      rewrite (Hloop 0 (seq 1 4) _ _ (Exception "Connection error.") ["again?"; "exit"])
        by reflexivity.
      reflexivity.
  - rewrite (Hrun "unhandled errors in a TaskGroup (1 sub-exception)") by reflexivity.
    reflexivity.
Defined.

(** C7 as stated does not hold: with two more lines waiting on the
    console, the second of them the exit word, a failure of the model query
    in the first turn ends the program; an error line is the last thing
    printed, one line has been read, the two others never are, and the
    goodbye line is not printed. *)
Lemma C7_session_is_aborted_counterexample :
  let run := dunder_main (RT := failing_runtime) 3
               (@initial_state failing_runtime ["weather?"; "again?"; "exit"]) in
  run.1 = Ok (Some tt) /\
  world run.2 = ["again?"; "exit"] /\
  inputs_read (trace run.2) = 1 /\
  (exists report, last (trace run.2) = Some (EvPrint (error_line report))) /\
  ~ In (EvPrint goodbye_line) (trace run.2).
Proof.
  vm_compute. split_and!; try reflexivity.
  - eexists. reflexivity.
  - intros H. repeat (destruct H as [H|H]; [discriminate H|]). exact H.
Qed.

(** * More of server.py: what [get_forecast] reports *)

Section ForecastProperties.
Import Server.
Variable py_str : json -> string.
Variable str_split : string -> list string.
Variable str_chars : string -> list string.
Variable str_subscript_error : string.
Variable format_day_forecast : list json -> string -> result string.

Local Abbreviation item_date := (Server.item_date str_split str_subscript_error).
Local Abbreviation group_loop :=
  (Server.group_loop str_split str_subscript_error format_day_forecast).
Local Abbreviation flush_last_day := (Server.flush_last_day format_day_forecast).
Local Abbreviation day_forecasts :=
  (Server.day_forecasts str_split str_subscript_error format_day_forecast).
Local Abbreviation dated_by := (Server.dated_by str_split str_subscript_error).
Local Abbreviation forecast_report :=
  (Server.forecast_report py_str str_split str_chars str_subscript_error format_day_forecast).
Local Abbreviation get_forecast :=
  (Server.get_forecast py_str str_split str_chars str_subscript_error format_day_forecast).

(** ** The runs of records of one date *)

Lemma runs_from_nonempty (current : string) (run : list json) (dated : list (string * json)) :
  run <> [] -> Forall (fun r => r <> []) (runs_from current run dated).
Proof.
  revert current run. induction dated as [|[d item] rest IH]; intros current run Hrun; simpl.
  - by constructor.
  - destruct (String.eqb d current).
    + apply IH. by destruct run.
    + constructor; [done|]. by apply IH.
Qed.

Lemma runs_from_concat (current : string) (run : list json) (dated : list (string * json)) :
  concat (runs_from current run dated) = run ++ map snd dated.
Proof.
  revert current run. induction dated as [|[d item] rest IH]; intros current run; simpl.
  - by rewrite !app_nil_r.
  - destruct (String.eqb d current); simpl; rewrite IH; [by rewrite <- app_assoc|done].
Qed.

Lemma date_runs_nonempty (dated : list (string * json)) :
  Forall (fun r => r <> []) (date_runs dated).
Proof.
  destruct dated as [|[d item] rest]; simpl; [constructor|].
  by apply runs_from_nonempty.
Qed.

Lemma date_runs_concat (dated : list (string * json)) :
  concat (date_runs dated) = map snd dated.
Proof.
  destruct dated as [|[d item] rest]; simpl; [done|]. by rewrite runs_from_concat.
Qed.

Lemma runs_from_same_date (current : string) (run : list json)
    (items : list json) (dates : list string) :
  dated_by items dates ->
  Forall (fun item => item_date item = Ok current) run ->
  Forall (fun r => exists d, Forall (fun item => item_date item = Ok d) r)
         (runs_from current run (zip dates items)).
Proof.
  intros Hd. revert current run.
  induction Hd as [|item d items dates Hitem _ IH]; intros current run Hrun; simpl.
  - constructor; [by exists current|constructor].
  - destruct (String.eqb_spec d current) as [->|Hne].
    + apply IH. apply Forall_app. split; [done|by constructor].
    + constructor; [by exists current|]. apply IH. by constructor.
Qed.

Lemma snd_zip_dated (items : list json) (dates : list string) :
  dated_by items dates -> map snd (zip dates items) = items.
Proof.
  intros Hd. apply snd_zip. apply Forall2_length in Hd. lia.
Qed.

(** ** The loop against the runs *)

Lemma group_loop_runs (days : Z) (temp_unit : string)
    (items : list json) (dates : list string) :
  dated_by items dates ->
  forall (fs : list string) (current : string) (run : list json),
    run <> [] ->
    (Z.of_nat (length fs) < days)%Z ->
    (group_loop days temp_unit items
       {| forecasts := fs; current_date := Some current; day_data := run |}
       ≫= flush_last_day days temp_unit)
    = (texts ← mapM (fun r => format_day_forecast r temp_unit)
                 (take (Z.to_nat days - length fs)
                       (runs_from current run (zip dates items)));
       Ok (fs ++ texts)).
Proof.
  intros Hd. induction Hd as [|item d items dates Hitem _ IH]; intros fs current run Hrun Hlt.
  - simpl. unfold Server.flush_last_day. simpl.
    destruct run as [|x run]; [done|]. simpl.
    rewrite (proj2 (Z.ltb_lt _ _)) by done.
    destruct (Z.to_nat days - length fs) as [|n] eqn:Hn; [lia|]. simpl.
    rewrite take_nil.
    destruct (format_day_forecast (x :: run) temp_unit) as [text|e]; done.
  - cbn [Server.group_loop zip zip_with runs_from]. rewrite Hitem. simpl.
    destruct (String.eqb_spec d current) as [->|Hne].
    + rewrite bool_decide_eq_true_2 by done. simpl.
      apply IH; [by destruct run|done].
    + rewrite bool_decide_eq_false_2 by congruence. simpl.
      destruct run as [|x run]; [done|]. simpl.
      destruct (Z.to_nat days - length fs) as [|n] eqn:Hn; [lia|]. simpl.
      destruct (format_day_forecast (x :: run) temp_unit) as [text|e]; [|done]. simpl.
      rewrite length_app. simpl.
      destruct (Z.leb_spec days (Z.of_nat (length fs + 1))) as [Hbreak|Hgo].
      * simpl. unfold Server.flush_last_day. simpl.
        rewrite length_app. simpl.
        rewrite (proj2 (Z.ltb_ge _ _)) by lia. simpl.
        assert (n = 0) as -> by lia. done.
      * rewrite IH; [|done|rewrite length_app; simpl; lia].
        rewrite length_app. simpl.
        replace (Z.to_nat days - (length fs + 1)) with n by lia.
        destruct (mapM _ _) as [texts|e]; simpl; [|done].
        by rewrite <- app_assoc.
Qed.

Lemma day_forecasts_runs (days : Z) (temp_unit : string)
    (items : list json) (dates : list string) :
  dated_by items dates ->
  (0 < days)%Z ->
  day_forecasts days temp_unit items
  = mapM (fun r => format_day_forecast r temp_unit)
         (take (Z.to_nat days) (date_runs (zip dates items))).
Proof.
  intros Hd Hdays. unfold Server.day_forecasts.
  destruct Hd as [|item d items dates Hitem Hd].
  - simpl. unfold Server.flush_last_day. simpl. by rewrite take_nil.
  - cbn [Server.group_loop zip zip_with date_runs]. rewrite Hitem. simpl.
    etrans; [apply (group_loop_runs days temp_unit items dates Hd [] d [item]); done|].
    simpl. rewrite Nat.sub_0_r.
    destruct (mapM _ _) as [texts|e]; done.
Qed.

Lemma mapM_result_Forall2 {A B} (f : A -> result B) (l : list A) (out : list B) :
  mapM f l = Ok out <-> Forall2 (fun a b => f a = Ok b) l out.
Proof.
  revert out. induction l as [|a l IH]; intros out; simpl.
  - split; [intros [= <-]; constructor|by inversion 1].
  - split.
    + destruct (f a) as [b|e] eqn:Hfa; simpl; [|done].
      destruct (mapM f l) as [bs|e] eqn:Hl; simpl; [|done].
      intros [= <-]. constructor; [done|]. by apply IH.
    + inversion 1 as [|? b ? bs Hfa Hrest]; subst. rewrite Hfa. simpl.
      apply IH in Hrest. rewrite Hrest. done.
Qed.

Lemma date_runs_same_date (items : list json) (dates : list string) :
  dated_by items dates ->
  Forall (fun r => exists d, Forall (fun item => item_date item = Ok d) r)
         (date_runs (zip dates items)).
Proof.
  intros Hd. destruct Hd as [|item d items dates Hitem Hd]; simpl; [constructor|].
  apply runs_from_same_date; [done|]. by constructor.
Qed.

(** X1: when every record of the list has a date and [days] is positive,
    the day loop formats exactly the first [days] runs of consecutive
    records sharing a date, one run after the other, and fails exactly when
    the formatter fails on one of them, with its error: records of later
    runs are neither formatted nor reported. *)
Theorem X1_day_blocks_are_the_first_runs
    (days : Z) (temp_unit : string) (items : list json) (dates : list string) :
  dated_by items dates ->
  (0 < days)%Z ->
  day_forecasts days temp_unit items
  = mapM (fun run => format_day_forecast run temp_unit)
         (take (Z.to_nat days) (date_runs (zip dates items))).
Proof. apply day_forecasts_runs. Qed.

(** X2: under the same conditions, the blocks the loop returns are the
    formats of runs of records such that there are at most [days] of them,
    none is empty (the formatter never divides by the length of an empty
    day), the records of a run share their date, and the runs put end to end
    are a prefix of the list in its order; they are the whole list when the
    list spans at most [days] dates, a short last day included. *)
Theorem X2_day_blocks_partition_a_prefix
    (days : Z) (temp_unit : string) (items : list json) (dates : list string)
    (blocks : list string) :
  dated_by items dates ->
  (0 < days)%Z ->
  day_forecasts days temp_unit items = Ok blocks ->
  exists runs,
    Forall2 (fun run block => format_day_forecast run temp_unit = Ok block) runs blocks /\
    (Z.of_nat (length blocks) <= days)%Z /\
    Forall (fun run => run <> []) runs /\
    Forall (fun run => exists d, Forall (fun item => item_date item = Ok d) run) runs /\
    concat runs `prefix_of` items /\
    (length (date_runs (zip dates items)) <= Z.to_nat days -> concat runs = items).
Proof.
  intros Hd Hdays Hrun.
  rewrite (day_forecasts_runs days temp_unit items dates Hd Hdays) in Hrun.
  apply mapM_result_Forall2 in Hrun.
  set (all := date_runs (zip dates items)) in *.
  exists (take (Z.to_nat days) all). split_and!.
  - exact Hrun.
  - apply Forall2_length in Hrun. rewrite <- Hrun, length_take. lia.
  - apply Forall_take, date_runs_nonempty.
  - apply Forall_take. by apply date_runs_same_date.
  - exists (concat (drop (Z.to_nat days) all)).
    rewrite <- concat_app, take_drop. unfold all.
    by rewrite date_runs_concat, snd_zip_dated.
  - intros Hfew. rewrite take_ge by done. unfold all.
    by rewrite date_runs_concat, snd_zip_dated.
Qed.

(** ** [get_forecast] as a whole *)

Lemma getitem_raises (v : json) (key : string) (e : exn) :
  getitem str_subscript_error v key = Raise e -> is_Exception e = true.
Proof.
  destruct v; simpl; try by intros [= <-].
  destruct (dict_get _ _); [done|by intros [= <-]].
Qed.

Lemma item_date_raises (item : json) (e : exn) :
  item_date item = Raise e -> is_Exception e = true.
Proof.
  unfold Server.item_date.
  destruct (getitem str_subscript_error item "dt_txt") as [v|e'] eqn:Hg; simpl.
  - destruct v; simpl; try by intros [= <-].
    destruct (str_split s); simpl; [by intros [= <-]|done].
  - intros [= <-]. by eapply getitem_raises.
Qed.

Lemma group_loop_raises (days : Z) (temp_unit : string) (items : list json)
    (st : day_state) (e : exn) :
  (forall day_data u e', format_day_forecast day_data u = Raise e' -> is_Exception e' = true) ->
  group_loop days temp_unit items st = Raise e -> is_Exception e = true.
Proof.
  intros Hfmt. revert st. induction items as [|item rest IH]; intros st; simpl; [done|].
  destruct (item_date item) as [d|e'] eqn:Hd; simpl.
  2:{ intros [= <-]. by eapply item_date_raises. }
  destruct (negb _); [|by apply IH].
  destruct (list_truthy _); [|by apply IH].
  destruct (format_day_forecast _ _) as [text|e'] eqn:Hf; simpl.
  2:{ intros [= <-]. by eapply Hfmt. }
  destruct (_ <=? _)%Z; [done|by apply IH].
Qed.

Lemma forecast_report_raises (data : list (string * json)) (days : Z) (units : string)
    (e : exn) :
  (forall day_data u e', format_day_forecast day_data u = Raise e' -> is_Exception e' = true) ->
  forecast_report data days units = Raise e -> is_Exception e = true.
Proof.
  intros Hfmt. unfold Server.forecast_report.
  destruct (getitem str_subscript_error (JObj data) "list") as [records|e'] eqn:H1; simpl.
  2:{ intros [= <-]. by eapply getitem_raises. }
  destruct (py_iter str_chars records) as [items|e'] eqn:H2; simpl.
  2:{ intros [= <-]. destruct records; simpl in H2; try done; by injection H2 as <-. }
  destruct (day_forecasts _ _ items) as [blocks|e'] eqn:H3; simpl.
  2:{ intros [= <-]. unfold Server.day_forecasts in H3.
      destruct (group_loop _ _ items _) as [st|e''] eqn:H4; simpl in H3.
      - unfold Server.flush_last_day in H3. destruct (_ && _); [|done].
        destruct (format_day_forecast _ _) as [text|e''] eqn:H5; simpl in H3; [done|].
        injection H3 as <-. by eapply Hfmt.
      - injection H3 as <-. by eapply group_loop_raises. }
  destruct (dict_get data "city") as [city|] eqn:H4; simpl; [|by intros [= <-]].
  destruct (getitem str_subscript_error city "name") as [city_name|e'] eqn:H5; simpl.
  2:{ intros [= <-]. by eapply getitem_raises. }
  destruct (getitem str_subscript_error city "country") as [country|e'] eqn:H6; simpl; [done|].
  intros [= <-]. by eapply getitem_raises.
Qed.

(** X3: when the HTTP exchange and the day formatter fail only with
    Exceptions, [get_forecast] never raises: whatever the key, the city, the
    days, the units and the body received, it returns a text. *)
Theorem X3_get_forecast_always_returns_a_text
    (key : option string) (http : http_client) (city : string) (days : Z) (units : string) :
  (forall request e, http request = Raise e -> is_Exception e = true) ->
  (forall day_data u e, format_day_forecast day_data u = Raise e -> is_Exception e = true) ->
  exists text, get_forecast key http city days units = Ok text.
Proof.
  intros Hhttp Hfmt. unfold Server.get_forecast, make_weather_request_run.
  destruct (make_weather_request key "forecast" _) as [request|]; simpl; [|by eexists].
  destruct (http request) as [data|e] eqn:Hr; simpl.
  2:{ specialize (Hhttp _ _ Hr). destruct e; try done. simpl. by eexists. }
  destruct data as [|member data]; [by eexists|].
  destruct (match dict_get (member :: data) "cod" with
            | Some cod => negb (json_eq_str cod "200") | None => true end); [by eexists|].
  destruct (forecast_report _ _ _) as [text|e] eqn:Hrep; [by eexists|].
  pose proof (forecast_report_raises _ _ _ _ Hfmt Hrep) as He.
  destruct e; try done. by eexists.
Qed.

(** X4: without an API key (none, or an empty one) [get_forecast] returns
    the "could not get the forecast" text naming the city, whatever the HTTP
    client would do; with a key, it returns the same text when the HTTP
    exchange raises an Exception and when the body is an empty object. *)
Theorem X4_fetch_failures_name_the_city
    (c : Ascii.ascii) (key city units : string) (days : Z) :
  let request := {| url := "https://api.openweathermap.org/data/2.5/forecast";
                    params := <["lang" := PStr "ru"]>
                                (<["appid" := PStr (String c key)]>
                                   (get_forecast_params city days units));
                    timeout := 30 |} in
  let text := "❌ Не удалось получить прогноз для города '" +:+ city +:+ "'." in
  (forall http, get_forecast None http city days units = Ok text) /\
  (forall http, get_forecast (Some "") http city days units = Ok text) /\
  (forall http msg,
     http request = Raise (Exception msg) ->
     get_forecast (Some (String c key)) http city days units = Ok text) /\
  (forall http,
     http request = Ok [] ->
     get_forecast (Some (String c key)) http city days units = Ok text).
Proof.
  intros request text. split_and!.
  - done.
  - done.
  - intros http msg Hr. unfold Server.get_forecast, make_weather_request_run.
    change (make_weather_request (Some (String c key)) "forecast"
              (get_forecast_params city days units)) with (Some request).
    cbv beta iota. by rewrite Hr.
  - intros http Hr. unfold Server.get_forecast, make_weather_request_run.
    change (make_weather_request (Some (String c key)) "forecast"
              (get_forecast_params city days units)) with (Some request).
    cbv beta iota. by rewrite Hr.
Qed.

Lemma get_forecast_on_body
    (key : option string) (http : http_client) (city units : string) (days : Z)
    (request : http_get) (data : list (string * json)) :
  get_forecast_request key city days units = Some request ->
  http request = Ok data ->
  data <> [] ->
  get_forecast key http city days units
  = if match dict_get data "cod" with
       | None => true
       | Some cod => negb (json_eq_str cod "200")
       end
    then Ok (api_error_text py_str data)
    else match forecast_report data (Z.min (Z.max days 1) 5) units with
         | Raise (Exception msg) => Ok (processing_error_text msg)
         | other => other
         end.
Proof.
  intros Hreq Hr Hne. unfold Server.get_forecast, make_weather_request_run.
  unfold get_forecast_request in Hreq. rewrite Hreq, Hr.
  destruct data; [done|]. reflexivity.
Qed.

(** X5: a body whose ["cod"] is missing or is anything but the string
    "200", the number 200 included, is reported as an API error, with the
    body's ["message"] when it has one and "Неизвестная ошибка" otherwise;
    its records are not looked at. *)
Theorem X5_cod_other_than_the_string_200_is_an_api_error
    (key : option string) (http : http_client) (city units : string) (days : Z)
    (request : http_get) (data : list (string * json)) :
  get_forecast_request key city days units = Some request ->
  http request = Ok data ->
  data <> [] ->
  (dict_get data "cod" = None \/
   exists cod, dict_get data "cod" = Some cod /\ cod <> JStr "200") ->
  get_forecast key http city days units
  = Ok ("❌ Ошибка API: " +:+
        match dict_get data "message" with
        | Some v => py_str v
        | None => "Неизвестная ошибка"
        end).
Proof.
  intros Hreq Hr Hne Hcod. unfold Server.get_forecast, make_weather_request_run.
  unfold get_forecast_request in Hreq. rewrite Hreq, Hr. simpl.
  destruct data as [|member data]; [done|].
  destruct Hcod as [-> | (cod & -> & Hcod)]; [done|].
  assert (json_eq_str cod "200" = false) as ->; [|done].
  destruct cod; simpl; try done.
  destruct (String.eqb_spec s "200"); [congruence|done].
Qed.

(** X6: on a body with ["cod"] "200", a list of dated records and a city
    with a name and a country, [get_forecast] returns the heading with the
    name and the country, a blank line, and the blocks of the first
    [min(max(days, 1), 5)] runs of records sharing a date, separated by
    blank lines; the unit handed to the formatter is "°C" for the units
    "metric" and "°F" for any other. *)
Theorem X6_get_forecast_reports_the_first_days
    (key : option string) (http : http_client) (city units : string) (days : Z)
    (request : http_get) (data : list (string * json))
    (items : list json) (dates : list string) (blocks : list string)
    (place : list (string * json)) (city_name country : json) :
  let temp_unit := if String.eqb units "metric" then "°C" else "°F" in
  get_forecast_request key city days units = Some request ->
  http request = Ok data ->
  dict_get data "cod" = Some (JStr "200") ->
  dict_get data "list" = Some (JArr items) ->
  dated_by items dates ->
  Forall2 (fun run block => format_day_forecast run temp_unit = Ok block)
          (take (Z.to_nat (Z.min (Z.max days 1) 5)) (date_runs (zip dates items))) blocks ->
  dict_get data "city" = Some (JObj place) ->
  dict_get place "name" = Some city_name ->
  dict_get place "country" = Some country ->
  get_forecast key http city days units
  = Ok ("📅 Прогноз погоды для " +:+ py_str city_name +:+ ", " +:+ py_str country
        +:+ nl +:+ nl +:+ String.concat (nl +:+ nl) blocks).
Proof.
  intros temp_unit Hreq Hr Hcod Hlist Hd Hblocks Hcity Hname Hcountry.
  rewrite (get_forecast_on_body key http city units days request data Hreq Hr)
    by (intros ->; discriminate Hcod).
  rewrite Hcod. cbn [json_eq_str]. rewrite String.eqb_refl. cbn [negb].
  unfold Server.forecast_report. cbn [getitem]. rewrite Hlist, Hcity.
  cbn [mbind result_bind py_iter].
  rewrite (day_forecasts_runs _ _ items dates Hd) by lia.
  apply mapM_result_Forall2 in Hblocks. fold temp_unit. rewrite Hblocks.
  cbn [mbind result_bind getitem]. rewrite Hname, Hcountry. done.
Qed.

(** X18: a body that says "200" but has no ["list"], or whose list starts
    with a record (a JSON object) without ["dt_txt"], is answered with the
    "error while processing the forecast data" text naming the missing key;
    no heading and no day block is returned. *)
Theorem X18_missing_keys_are_reported_by_name
    (key : option string) (http : http_client) (city units : string) (days : Z)
    (request : http_get) (data : list (string * json)) :
  get_forecast_request key city days units = Some request ->
  http request = Ok data ->
  dict_get data "cod" = Some (JStr "200") ->
  (dict_get data "list" = None ->
   get_forecast key http city days units
   = Ok "❌ Ошибка при обработке данных прогноза: 'list'") /\
  (forall members others,
     dict_get data "list" = Some (JArr (JObj members :: others)) ->
     dict_get members "dt_txt" = None ->
     get_forecast key http city days units
     = Ok "❌ Ошибка при обработке данных прогноза: 'dt_txt'").
Proof.
  intros Hreq Hr Hcod.
  assert (Hbody := get_forecast_on_body key http city units days request data Hreq Hr).
  rewrite Hcod in Hbody. cbn [json_eq_str] in Hbody. rewrite String.eqb_refl in Hbody.
  cbn [negb] in Hbody.
  split.
  - intros Hlist. rewrite Hbody by (intros ->; discriminate Hcod).
    unfold Server.forecast_report. cbn [getitem]. by rewrite Hlist.
  - intros members others Hlist Hdt. rewrite Hbody by (intros ->; discriminate Hcod).
    unfold Server.forecast_report. cbn [getitem]. rewrite Hlist.
    cbn [mbind result_bind py_iter]. unfold Server.day_forecasts.
    cbn [Server.group_loop]. unfold Server.item_date. cbn [getitem]. by rewrite Hdt.
Qed.

End ForecastProperties.

(** X7: with an API key configured, [make_weather_request] sends the
    request to the endpoint under the base URL with a 30 second timeout,
    the key as [appid] and [lang] set to "ru", whatever the caller had put
    under these two names; every other parameter of the caller goes out
    unchanged. *)
Theorem X7_request_keeps_the_callers_parameters
    (c : Ascii.ascii) (key endpoint : string) (params : gmap string Server.param) :
  exists request,
    Server.make_weather_request (Some (String c key)) endpoint params = Some request /\
    Server.url request = "https://api.openweathermap.org/data/2.5" +:+ "/" +:+ endpoint /\
    Server.timeout request = 30%Z /\
    Server.params request !! "appid" = Some (Server.PStr (String c key)) /\
    Server.params request !! "lang" = Some (Server.PStr "ru") /\
    (forall name, name <> "appid" -> name <> "lang" ->
       Server.params request !! name = params !! name).
Proof.
  eexists. split; [reflexivity|]. simpl. split_and!; try done.
  - rewrite lookup_insert_ne by done. by rewrite lookup_insert_eq.
  - by rewrite lookup_insert_eq.
  - intros name Ha Hl. by rewrite !lookup_insert_ne.
Qed.

(** * More of client.py: the shell and the loop *)

Section SessionProperties.
Context `{RT : Runtime}.

Lemma filter_query_local (evs : list event) :
  Forall is_local evs -> List.filter is_query evs = [].
Proof.
  induction 1 as [|ev evs [Hq _] _ IH]; [done|]. simpl. by rewrite Hq.
Qed.

Lemma filter_input_local (evs : list event) :
  Forall is_local evs -> List.filter is_input evs = [].
Proof.
  induction 1 as [|ev evs [_ Hi] _ IH]; [done|]. simpl. by rewrite Hi.
Qed.

Lemma requested_app (l1 l2 : list message_dict) :
  requested (l1 ++ l2) = requested l1 ++ requested l2.
Proof. unfold requested. apply List.flat_map_app. Qed.

Lemma requested_tool_turns (ids texts : list string) :
  requested (zip_with ToolMessage ids texts) = [].
Proof.
  revert texts. induction ids as [|i ids IH]; intros [|t texts]; simpl; by try apply IH.
Qed.

Lemma tool_turns_are_tool_messages (ids texts : list string) :
  Forall is_tool_message (zip_with ToolMessage ids texts).
Proof.
  revert texts. induction ids as [|i ids IH]; intros [|t texts]; simpl;
    by repeat constructor.
Qed.

Lemma sublist_map_take {A B} (f : A -> B) (k : nat) (l : list A) :
  map f (take k l) `sublist_of` map f l.
Proof.
  revert k. induction l as [|x l IH]; intros [|k]; simpl; try constructor.
  - apply sublist_nil_l.
  - apply IH.
Qed.

(** What a pass over the requests leaves in the history and in the trace. *)
Lemma dispatch_events (tcs : list tool_call) (s : state) :
  exists texts evs k,
    messages (dispatch_tool_calls tcs s).2
      = messages s ++ zip_with ToolMessage (map tc_id tcs) texts /\
    trace (dispatch_tool_calls tcs s).2 = trace s ++ evs /\
    Forall is_local evs /\
    calls_made evs = map request_of (take k tcs).
Proof.
  revert s. induction tcs as [|tc rest IH]; intros s.
  - exists [], [], 0. simpl. by rewrite !app_nil_r.
  - rewrite dispatch_cons, handle_tool_call_eq.
    destruct (json_loads _) as [v|e] eqn:Hp.
    2:{ exists [], [], 0. simpl. by rewrite !app_nil_r. }
    destruct (items v) as [members|e] eqn:Hitems.
    2:{ exists [], [], 0. simpl. by rewrite !app_nil_r. }
    assert (Hreq : request_of tc = (fn_name (tc_function tc), members)).
    { unfold request_of, call_args. rewrite Hp.
      destruct v; simpl in Hitems; try done. by injection Hitems as ->. }
    set (evs0 := [EvPrint (tool_call_line (fn_name (tc_function tc)) members);
                  EvCallTool (fn_name (tc_function tc)) members]).
    assert (Htr : trace (after_call tc members s) = trace s ++ evs0)
      by (unfold after_call; simpl; by rewrite <- app_assoc).
    assert (Hloc : Forall is_local evs0) by (repeat constructor).
    destruct (outcome_text _) as [text|e].
    2:{ exists [], evs0, 1. cbn [snd]. split_and!; [|done|done|].
        - simpl. by rewrite app_nil_r.
        - simpl. by rewrite Hreq. }
    destruct (IH (add_message (ToolMessage (tc_id tc) text) (after_call tc members s)))
      as (texts & evs & k & Hm & Ht & Hl & Hc).
    exists (text :: texts), (evs0 ++ evs), (S k). split_and!.
    + rewrite Hm. simpl. by rewrite <- app_assoc.
    + rewrite Ht, trace_add_message, Htr. by rewrite <- app_assoc.
    + by apply Forall_app.
    + rewrite calls_made_app, Hc. simpl. by rewrite Hreq.
Qed.

(** What a run of the loop leaves in the history and in the trace. *)
Lemma loop_events (tools : list openai_tool) (iterations : list nat) (s : state) :
  exists appended evs hs,
    messages (conversation_loop iterations tools s).2 = messages s ++ appended /\
    trace (conversation_loop iterations tools s).2 = trace s ++ evs /\
    List.filter is_query evs = map (fun h => EvQuery "gpt-4o-mini" h tools "auto") hs /\
    List.filter is_input evs = [] /\
    match iterations with
    | [] => hs = []
    | _ :: _ => exists later, hs = messages s :: later /\ grows_by_turns (messages s) later
    end /\
    calls_made evs `sublist_of` requested appended.
Proof.
  revert s. induction iterations as [|i rest IH]; intros s.
  - exists [], [], []. simpl. rewrite !app_nil_r. split_and!; try done; constructor.
  - rewrite conversation_loop_step. cbv zeta.
    assert (Hone : forall (w : World) (appended : list message_dict),
              exists evs hs,
                trace s ++ [query_event tools s] = trace s ++ evs /\
                List.filter is_query evs
                  = map (fun h => EvQuery "gpt-4o-mini" h tools "auto") hs /\
                List.filter is_input evs = [] /\
                (exists later, hs = messages s :: later /\ grows_by_turns (messages s) later) /\
                calls_made evs `sublist_of` requested appended).
    { intros w appended. exists [query_event tools s], [messages s].
      split_and!; try done; [by exists []|apply sublist_nil_l]. }
    destruct (chat_completions_create _ _ _ _ _) as [[response|e] w].
    2:{ destruct (Hone w []) as (evs & hs & H). exists [], evs, hs.
        cbn [snd]. simpl. by rewrite app_nil_r. }
    destruct (choices response) as [|first others].
    { destruct (Hone w []) as (evs & hs & H). exists [], evs, hs.
      cbn [snd]. simpl. by rewrite app_nil_r. }
    set (am := message first).
    set (turn := AssistantMessage (content am) (tool_calls am)).
    destruct (opt_list_truthy (tool_calls am)).
    2:{ destruct (Hone w [turn]) as (evs & hs & H). by exists [turn], evs, hs. }
    match goal with |- context [dispatch_tool_calls ?tcs ?st] =>
      destruct (dispatch_events tcs st) as (texts & evs_d & k & Hm & Ht & Hl & Hc);
      destruct (dispatch_tool_calls tcs st) as [[[]|e] s3] end; cbn [snd] in Hm, Ht.
    + destruct (IH s3) as (appended & evs & hs & Hm' & Ht' & Hq & Hi & Hhs & Hcalls).
      exists (turn :: zip_with ToolMessage (request_ids (tool_calls am)) texts ++ appended),
             ([query_event tools s; EvPrint (nl +:+ "⚙️ Вызов инструментов...")]
              ++ evs_d ++ evs),
             (messages s :: hs).
      split_and!.
      * rewrite Hm', Hm. simpl. by rewrite <- !app_assoc.
      * rewrite Ht', Ht. simpl. by rewrite <- !app_assoc.
      * simpl. rewrite List.filter_app, (filter_query_local evs_d Hl), Hq. done.
      * simpl. rewrite List.filter_app, (filter_input_local evs_d Hl), Hi. done.
      * exists hs. split; [done|].
        destruct rest as [|j rest]; [by subst hs|].
        destruct Hhs as (later & -> & Hgrow). simpl. split; [|done].
        exists (content am), (tool_calls am),
               (zip_with ToolMessage (request_ids (tool_calls am)) texts).
        split; [by rewrite Hm; simpl; rewrite <- app_assoc|].
        apply tool_turns_are_tool_messages.
      * simpl. rewrite calls_made_app, Hc, requested_app, requested_tool_turns. simpl.
        apply sublist_app; [apply sublist_map_take|done].
    + exists (turn :: zip_with ToolMessage (request_ids (tool_calls am)) texts),
             ([query_event tools s; EvPrint (nl +:+ "⚙️ Вызов инструментов...")] ++ evs_d),
             [messages s].
      cbn [snd]. split_and!.
      * rewrite Hm. simpl. by rewrite <- !app_assoc.
      * rewrite Ht. simpl. by rewrite <- !app_assoc.
      * simpl. by rewrite (filter_query_local evs_d Hl).
      * simpl. by rewrite (filter_input_local evs_d Hl).
      * by exists [].
      * simpl. rewrite Hc, requested_tool_turns, !app_nil_r. apply sublist_map_take.
Qed.

(** X15: every query of a run of [process_conversation] names the model
    "gpt-4o-mini", passes the tools it was given and the tool choice
    "auto", and sends the whole history as it stands: the first query the
    history at entry, every later one the history of the query before it
    followed by the assistant turn that answered it and by tool turns. *)
Theorem X15_every_query_replays_the_whole_history (tools : list openai_tool) (s : state) :
  exists later,
    List.filter is_query (trace (process_conversation tools s).2)
      = List.filter is_query (trace s)
        ++ map (fun h => EvQuery "gpt-4o-mini" h tools "auto") (messages s :: later) /\
    grows_by_turns (messages s) later.
Proof.
  unfold process_conversation. change (seq 0 max_iterations) with (0 :: seq 1 4).
  destruct (loop_events tools (0 :: seq 1 4) s)
    as (appended & evs & hs & _ & Ht & Hq & _ & (later & -> & Hgrow) & _).
  exists later. split; [|done]. by rewrite Ht, List.filter_app, Hq.
Qed.

(** X16: a run of [process_conversation], however it ends, never reads
    the console, and the tools it invokes are tools the model asked for in
    the assistant turns the run appended, with the arguments parsed from the
    request: in the order of the requests, none more often than asked. *)
Theorem X16_only_requested_tools_are_invoked (tools : list openai_tool) (s : state) :
  exists appended evs,
    messages (process_conversation tools s).2 = messages s ++ appended /\
    trace (process_conversation tools s).2 = trace s ++ evs /\
    calls_made evs `sublist_of` requested appended /\
    inputs_read evs = 0.
Proof.
  destruct (loop_events tools (seq 0 max_iterations) s)
    as (appended & evs & hs & Hm & Ht & _ & Hi & _ & Hcalls).
  exists appended, evs. split_and!; try done. unfold inputs_read. by rewrite Hi.
Qed.

(** X13: a completion without choices makes [response.choices[0]] fail:
    in any iteration the loop raises the IndexError right after its query,
    with nothing appended to the history, and so does
    [process_conversation] when it is the first response. *)
Theorem X13_completion_without_choices_raises
    (i : nat) (rest : list nat) (tools : list openai_tool) (s : state) (w : World) :
  chat_completions_create "gpt-4o-mini" (messages s) tools "auto" (world s)
    = (Ok {| choices := [] |}, w) ->
  let s' := set_world w (add_event (query_event tools s) s) in
  conversation_loop (i :: rest) tools s = (Raise (Exception "list index out of range"), s') /\
  process_conversation tools s = (Raise (Exception "list index out of range"), s') /\
  messages s' = messages s.
Proof.
  intros Hq s'. split_and!.
  - by rewrite conversation_loop_step, Hq.
  - unfold process_conversation. change (seq 0 max_iterations) with (0 :: seq 1 4).
    by rewrite conversation_loop_step, Hq.
  - done.
Qed.

(** X14: what a tool call raises that is not an Exception (a
    KeyboardInterrupt, say) is not turned into a tool turn: wherever the
    call stands in its turn, it leaves the inner loop with the call made,
    no tool turn appended for it and the calls after it not made. *)
Theorem X14_interrupt_in_a_tool_call_is_not_swallowed
    (tc : tool_call) (rest : list tool_call) (s : state)
    (members : list (string * json)) (e : exn) (w : World) :
  json_loads (fn_arguments (tc_function tc)) = Ok (JObj members) ->
  session_call_tool (fn_name (tc_function tc)) members (world s) = (Raise e, w) ->
  is_Exception e = false ->
  dispatch_tool_calls (tc :: rest) s = (Raise e, after_call tc members s) /\
  messages (after_call tc members s) = messages s /\
  calls_made (trace (after_call tc members s))
    = calls_made (trace s) ++ [(fn_name (tc_function tc), members)].
Proof.
  intros Hp Hcall He. split_and!.
  - rewrite dispatch_cons, handle_tool_call_eq, Hp. cbn [items]. rewrite Hcall.
    destruct e; done.
  - done.
  - apply after_call_calls.
Qed.

(** X17: the model asks for one tool, the tool answers with a text, the
    model then answers: [process_conversation] returns the model's answer
    after two queries and one tool call, the second query having been sent
    the history with the assistant turn and the tool turn carrying the
    tool's text unchanged, and the history has grown by these two turns and
    the final assistant turn. *)
Theorem X17_tool_result_reaches_the_second_query
    (tools : list openai_tool) (s : state) (text : option string) (tc : tool_call)
    (members : list (string * json)) (observed answer : string)
    (more : list content_block) (others others' : list choice) (w1 w2 w3 : World) :
  let asked_turn := AssistantMessage text (Some [tc]) in
  let tool_turn := ToolMessage (tc_id tc) observed in
  chat_completions_create "gpt-4o-mini" (messages s) tools "auto" (world s)
    = (Ok {| choices := {| message := {| content := text; tool_calls := Some [tc] |} |}
                        :: others |}, w1) ->
  json_loads (fn_arguments (tc_function tc)) = Ok (JObj members) ->
  session_call_tool (fn_name (tc_function tc)) members w1
    = (Ok {| result_content := TextContent observed :: more |}, w2) ->
  chat_completions_create "gpt-4o-mini" (messages s ++ [asked_turn; tool_turn]) tools
      "auto" w2
    = (Ok {| choices := {| message := {| content := Some answer; tool_calls := None |} |}
                        :: others' |}, w3) ->
  answer <> "" ->
  exists s',
    process_conversation tools s = (Ok answer, s') /\
    messages s'
      = messages s ++ [asked_turn; tool_turn; AssistantMessage (Some answer) None] /\
    List.filter is_query (trace s')
      = List.filter is_query (trace s)
        ++ [EvQuery "gpt-4o-mini" (messages s) tools "auto";
            EvQuery "gpt-4o-mini" (messages s ++ [asked_turn; tool_turn]) tools "auto"] /\
    calls_made (trace s') = calls_made (trace s) ++ [(fn_name (tc_function tc), members)] /\
    world s' = w3.
Proof.
  intros asked_turn tool_turn H1 Hp Hcall H2 Hne.
  unfold process_conversation. change (seq 0 max_iterations) with (0 :: 1 :: seq 2 3).
  rewrite conversation_loop_step, H1. cbv zeta.
  cbn [choices message tool_calls content opt_list_truthy list_truthy opt_list_elems].
  rewrite dispatch_cons, handle_tool_call_eq, Hp. cbn [items].
  cbn [world set_world add_event add_message]. rewrite Hcall.
  cbn [fst outcome_text result_content dispatch_tool_calls ret].
  rewrite conversation_loop_step.
  cbn [messages add_message after_call set_world add_event world snd].
  rewrite <- app_assoc. cbn [app]. fold asked_turn tool_turn.
  rewrite Hcall. cbn [snd]. rewrite H2. cbv zeta.
  cbn [choices message tool_calls content opt_list_truthy].
  eexists. split_and!.
  - f_equal. destruct answer; done.
  - simpl. rewrite <- !app_assoc. done.
  - simpl. rewrite !List.filter_app. simpl. unfold query_event. simpl.
    rewrite <- !app_assoc. done.
  - simpl. rewrite !calls_made_app. simpl. rewrite !app_nil_r. done.
  - done.
Qed.

(** ** The shell *)

(** The chat loop appends to the history, and what it appends passes the
    scan of tool turns from any pending list. *)
Lemma chat_loop_appends (fuel : nat) (tools : list openai_tool) (s : state) :
  exists appended,
    messages (chat_loop fuel tools s).2 = messages s ++ appended /\
    (forall p, tool_turns_in_order p appended = true).
Proof.
  revert s. induction fuel as [|fuel IH]; intros s.
  - exists []. simpl. by rewrite app_nil_r.
  - rewrite chat_loop_step. cbv zeta.
    destruct (input input_prompt (world s)) as [[line|e] w].
    2:{ exists []. simpl. by rewrite app_nil_r. }
    destruct (bool_decide _).
    { exists []. simpl. by rewrite app_nil_r. }
    destruct (negb _).
    { destruct (IH (set_world w (add_event (EvInput input_prompt) s)))
        as (appended & Hm & Hscan).
      by exists appended. }
    match goal with |- context [process_conversation tools ?st] =>
      destruct (loop_appends tools (seq 0 max_iterations) st) as (run & Hrun & Hscan & _);
      fold (process_conversation tools st) in Hrun;
      destruct (process_conversation tools st) as [[answer|e] s2] end;
      cbn [snd] in Hrun; rewrite messages_add_message in Hrun.
    + match goal with |- context [chat_loop fuel tools ?st] =>
        destruct (IH st) as (appended & Hm & Hscan') end.
      exists (UserMessage (str_strip line) :: run ++ appended). split.
      * rewrite Hm. simpl. rewrite Hrun. simpl. by rewrite <- !app_assoc.
      * intros p. simpl. by apply in_order_app.
    + exists (UserMessage (str_strip line) :: run). split.
      * cbn [snd]. rewrite Hrun. simpl. by rewrite <- !app_assoc.
      * intros p. simpl. apply Hscan.
Qed.

(** X8: when the line read, stripped and lower-cased, is one of the exit
    words, the chat loop ends at once, whatever fuel is left: the goodbye
    line is printed, nothing is appended to the history and no model query
    is sent; and once the session is up, a chat loop that ends normally
    makes [main] and the program leave both contexts and end normally,
    with nothing more printed. *)
Theorem X8_exit_word_ends_the_session :
  (forall (fuel : nat) (tools : list openai_tool) (s : state) (line : string) (w : World),
     input input_prompt (world s) = (Ok line, w) ->
     str_lower (str_strip line) ∈ exit_words ->
     chat_loop (S fuel) tools s
       = (Ok (Some tt),
          {| world := w;
             messages := messages s;
             trace := trace s ++ [EvInput input_prompt; EvPrint goodbye_line] |})) /\
  (forall (fuel : nat) (s : state) (w1 w2 w3 w4 : World) (catalog : list mcp_tool)
          (r : option unit) (s_end : state),
     stdio_client_enter server_params (world s) = (Ok tt, w1) ->
     client_session_enter w1 = (Ok tt, w2) ->
     session_initialize w2 = (Ok tt, w3) ->
     session_list_tools w3 = (Ok catalog, w4) ->
     chat_loop fuel (convert_mcp_tools_to_openai catalog) (chat_start s w4 catalog)
       = (Ok r, s_end) ->
     dunder_main fuel s = (Ok r, close_session s_end)).
Proof.
  split.
  - intros fuel tools s line w Hin Hexit. rewrite chat_loop_step, Hin. cbv zeta.
    rewrite bool_decide_eq_true_2 by done.
    unfold add_event, set_world. simpl. by rewrite <- app_assoc.
  - intros fuel s w1 w2 w3 w4 catalog r s_end H1 H2 H3 H4 Hchat.
    unfold dunder_main. rewrite (main_started fuel s w1 w2 w3 w4 catalog H1 H2 H3 H4).
    by rewrite Hchat.
Qed.

(** X9: a line that is empty once stripped (and is no exit word) is
    skipped: the chat loop goes on to read the next line, with nothing
    appended to the history, nothing printed and no model query sent. *)
Theorem X9_blank_line_is_skipped
    (fuel : nat) (tools : list openai_tool) (s : state) (line : string) (w : World) :
  input input_prompt (world s) = (Ok line, w) ->
  str_strip line = "" ->
  str_lower "" ∉ exit_words ->
  chat_loop (S fuel) tools s
  = chat_loop fuel tools
      {| world := w; messages := messages s; trace := trace s ++ [EvInput input_prompt] |}.
Proof.
  intros Hin Hblank Hexit. rewrite chat_loop_step, Hin. cbv zeta. rewrite Hblank.
  by rewrite bool_decide_eq_false_2.
Qed.

(** X10: the chat loop only ever appends to the history, and a history in
    which every tool turn answers, in order, a request of the assistant
    turn before it stays such a history, however the chat loop ends; so the
    history of a session that came up starts with the system prompt and is
    such a history when [main] ends. *)
Theorem X10_session_history_is_append_only_and_well_formed :
  (forall (fuel : nat) (tools : list openai_tool) (s : state),
     messages s `prefix_of` messages (chat_loop fuel tools s).2 /\
     (tool_turns_in_order [] (messages s) = true ->
      tool_turns_in_order [] (messages (chat_loop fuel tools s).2) = true)) /\
  (forall (fuel : nat) (s : state) (w1 w2 w3 w4 : World) (catalog : list mcp_tool),
     stdio_client_enter server_params (world s) = (Ok tt, w1) ->
     client_session_enter w1 = (Ok tt, w2) ->
     session_initialize w2 = (Ok tt, w3) ->
     session_list_tools w3 = (Ok catalog, w4) ->
     [SystemMessage system_prompt] `prefix_of` messages (main fuel s).2 /\
     tool_turns_in_order [] (messages (main fuel s).2) = true).
Proof.
  split.
  - intros fuel tools s. destruct (chat_loop_appends fuel tools s) as (appended & Hm & Hscan).
    rewrite Hm. split; [by exists appended|]. intros Hinit. by apply in_order_app.
  - intros fuel s w1 w2 w3 w4 catalog H1 H2 H3 H4.
    rewrite (main_started fuel s w1 w2 w3 w4 catalog H1 H2 H3 H4). cbn [snd].
    destruct (chat_loop_appends fuel (convert_mcp_tools_to_openai catalog)
                (chat_start s w4 catalog)) as (appended & Hm & Hscan).
    unfold close_session. cbn [messages set_world]. rewrite Hm. cbn [messages chat_start].
    split; [by exists appended|]. simpl. apply Hscan.
Qed.


(** X12: when the session does not come up, [main] has read nothing from
    the console, has left the history alone and has left every context it
    had entered, and what it raises is the failure as the exits of these
    contexts raise it again: the failure itself when entering the stdio
    client failed, what the stdio client's exit makes of it when entering
    the session failed, what the stdio client's exit makes of what the
    session's exit makes of it when [initialize] or [list_tools] failed. *)
Theorem X12_failed_startup_leaves_the_contexts_entered
    (fuel : nat) (s : state) (e : exn) :
  let banner := [EvPrint "🚀 Запуск MCP клиента..."; EvPrint (str_repeat "=" 60)] in
  let connected := [EvPrint "✅ Подключено к MCP серверу погоды";
                    EvPrint (str_repeat "=" 60)] in
  (forall w1,
     stdio_client_enter server_params (world s) = (Raise e, w1) ->
     main fuel s
       = (Raise e, {| world := w1; messages := messages s; trace := trace s ++ banner |})) /\
  (forall w1 w2,
     stdio_client_enter server_params (world s) = (Ok tt, w1) ->
     client_session_enter w1 = (Raise e, w2) ->
     main fuel s
       = (Raise (stdio_client_reraise e w2),
          {| world := stdio_client_exit w2;
             messages := messages s; trace := trace s ++ banner |})) /\
  (forall w1 w2 w3,
     stdio_client_enter server_params (world s) = (Ok tt, w1) ->
     client_session_enter w1 = (Ok tt, w2) ->
     session_initialize w2 = (Raise e, w3) ->
     main fuel s
       = (Raise (stdio_client_reraise (client_session_reraise e w3) (client_session_exit w3)),
          {| world := stdio_client_exit (client_session_exit w3);
             messages := messages s; trace := trace s ++ banner |})) /\
  (forall w1 w2 w3 w4,
     stdio_client_enter server_params (world s) = (Ok tt, w1) ->
     client_session_enter w1 = (Ok tt, w2) ->
     session_initialize w2 = (Ok tt, w3) ->
     session_list_tools w3 = (Raise e, w4) ->
     main fuel s
       = (Raise (stdio_client_reraise (client_session_reraise e w4) (client_session_exit w4)),
          {| world := stdio_client_exit (client_session_exit w4);
             messages := messages s;
             trace := trace s ++ banner ++ connected |})).
Proof.
  intros banner connected. subst banner connected.
  split_and!.
  - intros w1 H1.
    unfold main, session_body, with_context, bind, print, emit, world_op, ret.
    cbn [world add_event set_world set_messages trace messages].
    rewrite H1. unfold set_world. cbn [world messages trace add_event].
    by rewrite <- ?app_assoc.
  - intros w1 w2 H1 H2.
    unfold main, session_body, with_context, bind, print, emit, world_op, ret.
    cbn [world add_event set_world set_messages trace messages].
    rewrite H1. cbn [world add_event set_world set_messages trace messages].
    rewrite H2. unfold set_world. cbn [world messages trace add_event].
    by rewrite <- ?app_assoc.
  - intros w1 w2 w3 H1 H2 H3.
    unfold main, session_body, with_context, bind, print, emit, world_op, ret.
    cbn [world add_event set_world set_messages trace messages].
    rewrite H1. cbn [world add_event set_world set_messages trace messages].
    rewrite H2. cbn [world add_event set_world set_messages trace messages].
    rewrite H3. unfold set_world. cbn [world messages trace add_event].
    by rewrite <- ?app_assoc.
  - intros w1 w2 w3 w4 H1 H2 H3 H4.
    unfold main, session_body, with_context, bind, print, emit, world_op, ret.
    cbn [world add_event set_world set_messages trace messages].
    rewrite H1. cbn [world add_event set_world set_messages trace messages].
    rewrite H2. cbn [world add_event set_world set_messages trace messages].
    rewrite H3. cbn [world add_event set_world set_messages trace messages].
    rewrite H4. unfold set_world. cbn [world messages trace add_event].
    by rewrite <- ?app_assoc.
Qed.

End SessionProperties.

(** * The further properties on concrete data *)

Import DemoForecast.

Lemma evening_records_dated :
  Server.dated_by split_spaces "string indices must be integers" evening_records evening_dates.
Proof. repeat constructor. Qed.

(** Six records over three dates, two days asked for. *)
Lemma X1_two_days_of_three_witness :
  Server.day_forecasts split_spaces "string indices must be integers" count_records
    2 "°C" evening_records
  = Ok ["2 records, °C"; "3 records, °C"].
Proof.
  rewrite (X1_day_blocks_are_the_first_runs split_spaces "string indices must be integers"
             count_records 2 "°C" evening_records evening_dates).
  - reflexivity.
  - apply evening_records_dated.
  - lia.
Defined.

(** Five days asked for, three dates at hand: every record is reported. *)
Lemma X2_short_list_witness :
  exists runs,
    Forall2 (fun run block => count_records run "°C" = Ok block) runs
            ["2 records, °C"; "3 records, °C"; "1 records, °C"] /\
    concat runs = evening_records.
Proof.
  destruct (X2_day_blocks_partition_a_prefix split_spaces "string indices must be integers"
              count_records 5 "°C" evening_records evening_dates
              ["2 records, °C"; "3 records, °C"; "1 records, °C"])
    as (runs & Hfmt & _ & _ & _ & _ & Hall).
  - apply evening_records_dated.
  - lia.
  - reflexivity.
  - exists runs. split; [exact Hfmt|]. apply Hall. vm_compute. lia.
Defined.

(** The weather API cannot be reached. *)
Lemma X3_unreachable_api_witness :
  exists text,
    Server.get_forecast demo_py_str split_spaces (fun _ => [])
      "string indices must be integers" count_records
      (Some "key") unreachable "Moscow" 3 "metric" = Ok text.
Proof.
  apply (X3_get_forecast_always_returns_a_text demo_py_str split_spaces (fun _ => [])
           "string indices must be integers" count_records).
  - intros request e H. by injection H as <-.
  - intros day_data u e H. discriminate H.
Defined.

(** A body that says 200 as a number, as the current-weather endpoint does. *)
Lemma X5_numeric_cod_witness :
  Server.get_forecast demo_py_str split_spaces (fun _ => [])
    "string indices must be integers" count_records
    (Some "key") (answering (forecast_body (JInt 200))) "Moscow" 2 "metric"
  = Ok "❌ Ошибка API: Неизвестная ошибка".
Proof.
  etrans.
  - eapply (X5_cod_other_than_the_string_200_is_an_api_error demo_py_str split_spaces
              (fun _ => []) "string indices must be integers" count_records
              (Some "key") (answering (forecast_body (JInt 200))) "Moscow" "metric" 2
              _ (forecast_body (JInt 200))).
    + reflexivity.
    + reflexivity.
    + discriminate.
    + right. exists (JInt 200). split; [reflexivity|discriminate].
  - reflexivity.
Defined.

(** Two days of a forecast for Moscow. *)
Lemma X6_moscow_forecast_witness :
  Server.get_forecast demo_py_str split_spaces (fun _ => [])
    "string indices must be integers" count_records
    (Some "key") (answering (forecast_body (JStr "200"))) "Moscow" 2 "metric"
  = Ok ("📅 Прогноз погоды для Moscow, RU" +:+ nl +:+ nl +:+
        "2 records, °C" +:+ nl +:+ nl +:+ "3 records, °C").
Proof.
  etrans.
  - eapply (X6_get_forecast_reports_the_first_days demo_py_str split_spaces (fun _ => [])
              "string indices must be integers" count_records
              (Some "key") (answering (forecast_body (JStr "200"))) "Moscow" "metric" 2
              _ (forecast_body (JStr "200")) evening_records evening_dates
              ["2 records, °C"; "3 records, °C"]
              [("name", JStr "Moscow"); ("country", JStr "RU")] (JStr "Moscow") (JStr "RU")).
    + reflexivity.
    + reflexivity.
    + reflexivity.
    + reflexivity.
    + apply evening_records_dated.
    + repeat constructor.
    + reflexivity.
    + reflexivity.
    + reflexivity.
  - reflexivity.
Defined.

(** An empty line, then the exit word. *)
Lemma X9_empty_line_witness :
  chat_loop (RT := direct_runtime) 2 [] (@initial_state direct_runtime [""; "exit"])
  = chat_loop (RT := direct_runtime) 1 []
      (@Build_state direct_runtime ["exit"] [] [EvInput input_prompt]).
Proof.
  apply (X9_blank_line_is_skipped (RT := direct_runtime) 1 []
           (@initial_state direct_runtime [""; "exit"]) "" ["exit"]).
  - reflexivity.
  - reflexivity.
  - intros Hin.
    repeat (apply elem_of_cons in Hin as [Hin|Hin]; [discriminate Hin|]).
    by apply elem_of_nil in Hin.
Defined.

(** The endpoint answers with a completion that has no choice. *)
Lemma X13_no_choice_witness :
  process_conversation (RT := choiceless_runtime) [] (asked choiceless_runtime [])
  = (Raise (Exception "list index out of range"),
     add_event (query_event [] (asked choiceless_runtime [])) (asked choiceless_runtime [])).
Proof.
  destruct (X13_completion_without_choices_raises (RT := choiceless_runtime) 0 [] []
              (asked choiceless_runtime []) []) as (_ & Hrun & _).
  - reflexivity.
  - exact Hrun.
Defined.

(** The user interrupts the program during the first of two tool calls. *)
Lemma X14_interrupted_call_witness :
  dispatch_tool_calls (RT := interrupted_runtime)
    [call "call_1" "get_forecast" "{}"; call "call_2" "get_current_weather" "{}"]
    (asked interrupted_runtime [])
  = (Raise KeyboardInterrupt,
     after_call (RT := interrupted_runtime) (call "call_1" "get_forecast" "{}") []
       (asked interrupted_runtime [])).
Proof.
  apply (X14_interrupt_in_a_tool_call_is_not_swallowed (RT := interrupted_runtime)
           (call "call_1" "get_forecast" "{}") [call "call_2" "get_current_weather" "{}"]
           (asked interrupted_runtime []) [] KeyboardInterrupt []).
  - reflexivity.
  - reflexivity.
  - reflexivity.
Defined.

(** Scenario B: one tool call that succeeds, then the answer. *)
Lemma X17_one_tool_call_witness :
  exists s',
    process_conversation (RT := one_call_runtime) [] (asked one_call_runtime [])
      = (Ok "Sunny.", s') /\
    messages s'
      = messages (asked one_call_runtime [])
        ++ [AssistantMessage None (Some [call "call_1" "get_current_weather" "{}"]);
            ToolMessage "call_1" "Sunny, 21 C";
            AssistantMessage (Some "Sunny.") None] /\
    calls_made (trace s') = [] ++ [("get_current_weather", [])].
Proof.
  destruct (X17_tool_result_reaches_the_second_query (RT := one_call_runtime) []
              (asked one_call_runtime []) None
              (call "call_1" "get_current_weather" "{}") [] "Sunny, 21 C" "Sunny."
              [] [] [] [] [] [])
    as (s' & Hrun & Hm & _ & Hcalls & _).
  - reflexivity.
  - reflexivity.
  - reflexivity.
  - reflexivity.
  - discriminate.
  - exists s'. split_and!; [exact Hrun|exact Hm|exact Hcalls].
Defined.

(** The user types the exit word at the first prompt. *)
Lemma X8_exit_at_once_witness :
  dunder_main (RT := direct_runtime) 1 (@initial_state direct_runtime ["exit"; "unread"])
  = (Ok (Some tt),
     @Build_state direct_runtime ["unread"] [SystemMessage system_prompt]
       (startup_events weather_catalog ++ [EvInput input_prompt; EvPrint goodbye_line])).
Proof.
  destruct (X8_exit_word_ends_the_session (RT := direct_runtime)) as [Hchat Hmain].
  rewrite (Hmain 1 (@initial_state direct_runtime ["exit"; "unread"])
             ["exit"; "unread"] ["exit"; "unread"] ["exit"; "unread"] ["exit"; "unread"]
             weather_catalog (Some tt)
             (@Build_state direct_runtime ["unread"] [SystemMessage system_prompt]
                (startup_events weather_catalog
                 ++ [EvInput input_prompt; EvPrint goodbye_line]))).
  - reflexivity.
  - reflexivity.
  - reflexivity.
  - reflexivity.
  - reflexivity.
  - rewrite (Hchat 0 _ _ "exit" ["unread"]).
    + reflexivity.
    + reflexivity.
    + apply elem_of_cons. right. apply elem_of_cons. by left.
Defined.


(** A body without its list of records. *)
Lemma X18_no_list_witness :
  Server.get_forecast demo_py_str split_spaces (fun _ => [])
    "string indices must be integers" count_records
    (Some "key") (answering [("cod", JStr "200")]) "Moscow" 2 "metric"
  = Ok "❌ Ошибка при обработке данных прогноза: 'list'".
Proof.
  eapply (X18_missing_keys_are_reported_by_name demo_py_str split_spaces (fun _ => [])
            "string indices must be integers" count_records
            (Some "key") (answering [("cod", JStr "200")]) "Moscow" "metric" 2
            _ [("cod", JStr "200")]).
  - reflexivity.
  - reflexivity.
  - reflexivity.
  - reflexivity.
Defined.
